(** * nfc-reader: character lookup, chat orchestration and request deduplication

    Shallow embedding of the Python sources
    - [gemini_service.py]   (class [GeminiService]),
    - [http_api_server.py]  (Flask endpoints [validate_character], [get_character]),
    - [http_server.py]      (FastAPI endpoints [chat], [get_character_info],
                             helper [is_duplicate_message]),
    together with a model of the character cache engine and directory facade,
    whose modules ([cached_feishu_service], [feishu_service],
    [character_prompts]) are imported by the sources but not part of them.

    Python data is rendered as follows: [int] as [Z], [str] as [string] (the
    UTF-8 bytes of the text), [Optional[T]] as [option T], [float] as the
    binary64 [float] of the kernel, a [dict] whose order is never observed as
    a [gmap], a [dict] whose insertion order is observed as an association
    list, a [list] as [list]. *)

From stdpp Require Import gmap strings list pretty.
From Stdlib Require Import ZArith Ascii PrimFloat.

Open Scope Z_scope.

(** ** Python built-ins used by the sources *)

Module Py.

(** [l[start:]] for a possibly negative [start]: a negative index counts
    from the end, and both ends are clamped to the list. *)
Definition slice_from {A} (start : Z) (l : list A) : list A :=
  let n := Z.of_nat (length l) in
  let s := if start <? 0 then Z.max 0 (start + n) else Z.min start n in
  drop (Z.to_nat s) l.

(** [l[:stop]], same convention. *)
Definition slice_to {A} (stop : Z) (l : list A) : list A :=
  let n := Z.of_nat (length l) in
  let s := if stop <? 0 then Z.max 0 (stop + n) else Z.min stop n in
  take (Z.to_nat s) l.

(** Truth value of a [str] and of an [Optional[str]]. *)
Definition str_truthy (s : string) : bool :=
  match s with EmptyString => false | _ => true end.

Definition opt_str_truthy (o : option string) : bool :=
  match o with Some s => str_truthy s | None => false end.

(** [x or d] on an [Optional[str]]. *)
Definition str_or (o : option string) (d : string) : string :=
  match o with
  | Some s => if str_truthy s then s else d
  | None => d
  end.

(** [str(n)] for an [int]: signed decimal. *)
Definition str_of_int (n : Z) : string := pretty n.

(** The last [n] elements of a list (all of it when it is shorter). *)
Definition last_n {A} (n : nat) (l : list A) : list A :=
  drop (length l - n) l.

End Py.

(** ** The interface of [character_prompts]

    [gemini_service.py] and [http_server.py] import these functions; the
    module itself is not among the sources, so the code that uses it is
    stated over an arbitrary implementation. *)

Record CharacterPrompts := {
  get_character_name : Z -> string;
  get_character_voice_id : Z -> string;
  get_available_characters : gmap Z string;
  format_message_with_character : string -> Z -> string
}.

(** ** gemini_service.py *)

Module Gemini.

(** One entry of [conversation_history]: the dict
    [{'role': .., 'content': .., 'timestamp': ..}]. *)
Record HistoryEntry := {
  role : string;
  content : string;
  timestamp : string
}.

(** An element of [get_context_messages()]: [{'role': .., 'parts': [..]}]. *)
Record ContextMessage := {
  ctx_role : string;
  ctx_parts : list string
}.

(** What a [logger] call writes; the text of the record is kept
    structured. *)
Inductive LogRecord :=
| LogCharacterSet (character_name : string) (character_id : Z)
| LogUnknownCharacter (character_id : Z) (available : gmap Z string).

(** The attributes of a [GeminiService] that the methods read and write.
    [model] is the remote generative model; calls to it are modelled where
    [send_message] makes them. *)
Record GeminiService := {
  conversation_history : list HistoryEntry;
  max_history_length : Z;
  current_character_id : Z
}.

(** The attribute values [__init__] leaves behind when it does not raise
    (it raises [ValueError] when no API key can be found). *)
Definition init : GeminiService :=
  {| conversation_history := [];
     max_history_length := 50;
     current_character_id := 1 |}.

(** [add_to_history(role, content)]; [now] is the value of
    [datetime.now().isoformat()] at the call. *)
Definition add_to_history (self : GeminiService)
    (role content now : string) : GeminiService :=
  let h := conversation_history self ++
           [{| role := role; content := content; timestamp := now |}] in
  let h' :=
    if max_history_length self <? Z.of_nat (length h)
    then Py.slice_from (- max_history_length self) h
    else h in
  {| conversation_history := h';
     max_history_length := max_history_length self;
     current_character_id := current_character_id self |}.

(** [get_context_messages()]: entries with another role are skipped. *)
Definition get_context_messages (self : GeminiService) : list ContextMessage :=
  flat_map
    (fun msg =>
       if String.eqb (role msg) "user"
       then [{| ctx_role := "user"; ctx_parts := [content msg] |}]
       else if String.eqb (role msg) "assistant"
       then [{| ctx_role := "model"; ctx_parts := [content msg] |}]
       else [])
    (conversation_history self).

(** The entry that a call [add_to_history(role, content)] at clock
    reading [now] appends, the call being given as (role, content, now). *)
Definition entry_of (c : string * string * string) : HistoryEntry :=
  {| role := c.1.1; content := c.1.2; timestamp := c.2 |}.

(** A run of [add_to_history] calls on the same service. *)
Definition add_all (self : GeminiService)
    (calls : list (string * string * string)) : GeminiService :=
  foldl (fun s c => add_to_history s c.1.1 c.1.2 c.2) self calls.

Definition clear_history (self : GeminiService) : GeminiService :=
  {| conversation_history := [];
     max_history_length := max_history_length self;
     current_character_id := current_character_id self |}.

Definition get_history (self : GeminiService) : list HistoryEntry :=
  conversation_history self.

Definition get_current_character_id (self : GeminiService) : Z :=
  current_character_id self.

(** [set_character(character_id)]: returns the service afterwards and the
    log record written. *)
Definition set_character (cp : CharacterPrompts) (self : GeminiService)
    (character_id : Z) : GeminiService * LogRecord :=
  let available_characters := get_available_characters cp in
  if bool_decide (is_Some (available_characters !! character_id))
  then
    ({| conversation_history := conversation_history self;
        max_history_length := max_history_length self;
        current_character_id := character_id |},
     LogCharacterSet (get_character_name cp character_id) character_id)
  else (self, LogUnknownCharacter character_id available_characters).

(** A call on the remote model made by [send_message]:
    [model.start_chat(history=..).send_message(..)] or
    [model.generate_content(..)]. *)
Inductive ModelCall :=
| StartChatSend (history : list ContextMessage) (formatted_message : string)
| GenerateContent (formatted_message : string).

(** [send_message(message, include_context, character_id)].  [reply] is
    what the remote model does on the call it receives: [inr text] for a
    response whose [.text] is [text], [inl s] for an exception [e] with
    [str(e) = s].  [now1] and [now2] are the clock readings of the two
    [add_to_history] calls.  The result is the service afterwards, the
    call made on the model, and either the response text or the message of
    the [Exception] raised. *)
Definition send_message (cp : CharacterPrompts)
    (reply : ModelCall -> string + string) (now1 now2 : string)
    (self : GeminiService) (message : string) (include_context : bool)
    (character_id : option Z)
    : GeminiService * ModelCall * (string + string) :=
  let character_to_use :=
    match character_id with
    | Some c => c
    | None => current_character_id self
    end in
  let self1 :=
    match character_id with
    | Some c =>
        if negb (c =? current_character_id self)
        then {| conversation_history := conversation_history self;
                max_history_length := max_history_length self;
                current_character_id := c |}
        else self
    | None => self
    end in
  let formatted_message :=
    format_message_with_character cp message character_to_use in
  let self2 := add_to_history self1 "user" message now1 in
  let call :=
    if include_context &&
       (1 <? Z.of_nat (length (conversation_history self2)))
    then StartChatSend (Py.slice_to (-1) (get_context_messages self2))
                       formatted_message
    else GenerateContent formatted_message in
  match reply call with
  | inr response_text =>
      (add_to_history self2 "assistant" response_text now2, call,
       inr response_text)
  | inl e => (self2, call, inl ("Gemini API error: " +:+ e))
  end.

(** The service with its history replaced. *)
Definition with_history (self : GeminiService) (h : list HistoryEntry)
    : GeminiService :=
  {| conversation_history := h;
     max_history_length := max_history_length self;
     current_character_id := current_character_id self |}.

(** [get_current_character()]. *)
Definition get_current_character (cp : CharacterPrompts)
    (self : GeminiService) : string :=
  get_character_name cp (current_character_id self).

(** The dict returned by [get_conversation_summary()]. *)
Record ConversationSummary := {
  total_messages : nat;
  user_messages : nat;
  assistant_messages : nat;
  last_message_time : option string;
  history_length_limit : Z;
  summary_character_id : Z;
  summary_character_name : string;
  summary_available_characters : gmap Z string
}.

(** [get_conversation_summary()]. *)
Definition get_conversation_summary (cp : CharacterPrompts)
    (self : GeminiService) : ConversationSummary :=
  {| total_messages := length (conversation_history self);
     user_messages :=
       length (filter (fun m => role m = "user") (conversation_history self));
     assistant_messages :=
       length (filter (fun m => role m = "assistant")
                 (conversation_history self));
     last_message_time := timestamp <$> last (conversation_history self);
     history_length_limit := max_history_length self;
     summary_character_id := current_character_id self;
     summary_character_name := get_current_character cp self;
     summary_available_characters := get_available_characters cp |}.

End Gemini.

(** ** The character cache engine and the directory facade

    The modules that implement them ([cached_feishu_service],
    [feishu_service], [character_prompts]) are not among the sources; this
    module follows the specification's sections 3, 4.1, 4.2 and 7.  Time is
    an integer number of clock units, as is the TTL.  The single-flight
    guard of section 5 concerns concurrent callers and has no counterpart in
    this sequential model. *)

Module Cache.

(** Modelled from the spec: the fixed fallback voice id of section 3 (the
    cache module is missing); the value is the one the endpoints of
    [http_api_server.py] and [http_server.py] use. *)
Definition default_voice_id : string :=
  "moss_audio_af916082-2e36-11f0-92db-0e8893cbb430".

(** Modelled from the spec: the generic fallback label of section 4.2
    ([character_prompts] is missing); the value is the one
    [get_character_info] in [http_server.py] compares against. *)
Definition fallback_label : string := "AI 助手".

(** Modelled from the spec: CharacterRecord of section 3. *)
Record CharacterRecord := {
  id : Z;
  name : string;
  prompt : string;
  voiceId : string;
  available : bool
}.

(** Modelled from the spec: a raw record of the remote source, section 6;
    no field is guaranteed to be present. *)
Record RawRow := {
  row_id : option Z;
  row_name : option string;
  row_prompt : option string;
  row_voiceId : option string;
  row_available : option bool
}.

(** Modelled from the spec: the error taxonomy of section 7 that a refresh
    can report. *)
Inductive RefreshError :=
| RemoteUnavailable (detail : string)
| ParseError (detail : string).

(** Modelled from the spec: RefreshResult of section 4.1. *)
Inductive RefreshResult :=
| Skipped
| Success (count : nat)
| Failed (error : RefreshError).

(** Modelled from the spec: the answer of the remote source to "fetch all
    character rows". *)
Inductive FetchResult :=
| FetchFailed (detail : string)
| FetchRows (rows : list RawRow).

(** Modelled from the spec: the field defaults of section 3, applied to a
    row whose id is [i]. *)
Definition with_defaults (i : Z) (r : RawRow) : CharacterRecord :=
  {| id := i;
     name := default ("Character " +:+ Py.str_of_int i) (row_name r);
     prompt := default "" (row_prompt r);
     voiceId := default default_voice_id (row_voiceId r);
     available := default true (row_available r) |}.

(** Modelled from the spec: parsing one row.  A row is malformed when it
    cannot yield a record keyed by a positive integer id. *)
Definition parse_row (r : RawRow) : option CharacterRecord :=
  match row_id r with
  | Some i => if 0 <? i then Some (with_defaults i r) else None
  | None => None
  end.

(** Modelled from the spec: all-or-nothing parse of section 7; one
    malformed row rejects the whole list. *)
Fixpoint parse_rows (rows : list RawRow) : option (list CharacterRecord) :=
  match rows with
  | [] => Some []
  | r :: rest =>
      match parse_row r, parse_rows rest with
      | Some c, Some cs => Some (c :: cs)
      | _, _ => None
      end
  end.

(** Modelled from the spec: the mapping built from the parsed records, in
    source order, each record stored under its id. *)
Definition build_snapshot (recs : list CharacterRecord)
    : gmap Z CharacterRecord :=
  foldl (fun m c => <[id c := c]> m) ∅ recs.

(** Modelled from the spec: the Cache Snapshot of section 3 with its
    metadata. *)
Record Engine := {
  snapshot : gmap Z CharacterRecord;
  lastRefreshedAt : option Z;
  sourceRowCount : nat;
  lastError : option RefreshError
}.

(** Modelled from the spec: the engine together with the number of calls
    made so far on the remote source. *)
Record World := {
  engine : Engine;
  fetch_count : nat
}.

(** Modelled from the spec: "snapshot is created empty at process start". *)
Definition init_engine : Engine :=
  {| snapshot := ∅;
     lastRefreshedAt := None;
     sourceRowCount := 0;
     lastError := None |}.

(** Modelled from the spec: the world at process start, before any call on
    the remote source. *)
Definition init_world : World :=
  {| engine := init_engine; fetch_count := 0 |}.

(** Modelled from the spec: "the snapshot is younger than the configured
    TTL"; an engine that never refreshed has no snapshot age. *)
Definition younger_than_ttl (ttl : Z) (e : Engine) (now : Z) : bool :=
  match lastRefreshedAt e with
  | Some t => now - t <? ttl
  | None => false
  end.

(** Modelled from the spec: [lookup] of section 4.1; [None] is NotFound. *)
Definition lookup (e : Engine) (i : Z) : option CharacterRecord :=
  snapshot e !! i.

(** Modelled from the spec: what a refresh that reached the remote source
    does with the answer. *)
Definition install (now : Z) (e : Engine) (answer : FetchResult)
    : RefreshResult * Engine :=
  match answer with
  | FetchFailed d =>
      (Failed (RemoteUnavailable d),
       {| snapshot := snapshot e;
          lastRefreshedAt := lastRefreshedAt e;
          sourceRowCount := sourceRowCount e;
          lastError := Some (RemoteUnavailable d) |})
  | FetchRows rows =>
      match parse_rows rows with
      | None =>
          (Failed (ParseError "malformed row"),
           {| snapshot := snapshot e;
              lastRefreshedAt := lastRefreshedAt e;
              sourceRowCount := sourceRowCount e;
              lastError := Some (ParseError "malformed row") |})
      | Some recs =>
          (Success (length recs),
           {| snapshot := build_snapshot recs;
              lastRefreshedAt := Some now;
              sourceRowCount := length rows;
              lastError := lastError e |})
      end
  end.

(** Modelled from the spec: [refresh(force)] of section 4.1, called at
    time [now].  [remote n] is the answer of the remote source to its
    [n]-th call (counted from 0). *)
Definition refresh (ttl : Z) (remote : nat -> FetchResult)
    (force : bool) (now : Z) (w : World) : RefreshResult * World :=
  if negb force && younger_than_ttl ttl (engine w) now
  then (Skipped, w)
  else
    let '(res, e') := install now (engine w) (remote (fetch_count w)) in
    (res, {| engine := e'; fetch_count := S (fetch_count w) |}).

(** Modelled from the spec: CacheStatus and [getStatus] of section 4.1;
    [isStale] is [now - lastRefreshedAt > TTL], and an engine that never
    refreshed reports stale. *)
Record CacheStatus := {
  entryCount : nat;
  status_lastRefreshedAt : option Z;
  isStale : bool;
  status_lastError : option RefreshError
}.

(** Modelled from the spec: [getStatus] of section 4.1, read at time
    [now]; it consults the engine only. *)
Definition getStatus (ttl : Z) (e : Engine) (now : Z) : CacheStatus :=
  {| entryCount := size (snapshot e);
     status_lastRefreshedAt := lastRefreshedAt e;
     isStale :=
       match lastRefreshedAt e with
       | Some t => ttl <? now - t
       | None => true
       end;
     status_lastError := lastError e |}.

(** Modelled from the spec: [nameFor] of the Directory Facade, section
    4.2: the cached name, the generic fallback label for an absent id. *)
Definition nameFor (e : Engine) (i : Z) : string :=
  match lookup e i with
  | Some c => name c
  | None => fallback_label
  end.

(** Modelled from the spec: [voiceIdFor] of section 4.2: the cached voice
    id, the fixed default voice id for an absent id. *)
Definition voiceIdFor (e : Engine) (i : Z) : string :=
  match lookup e i with
  | Some c => voiceId c
  | None => default_voice_id
  end.

(** Modelled from the spec: [availableIds] of section 4.2. *)
Definition availableIds (e : Engine) : gset Z := dom (snapshot e).

(** Modelled from the spec: [isKnown] of section 4.2. *)
Definition isKnown (e : Engine) (i : Z) : bool :=
  bool_decide (i ∈ availableIds e).

(** Modelled from the spec: the facade seen through the interface that
    the sources import from [character_prompts]; the prompt formatting
    [fmt] is outside the specification. *)
Definition character_prompts (fmt : string -> Z -> string) (e : Engine)
    : CharacterPrompts :=
  {| get_character_name := nameFor e;
     get_character_voice_id := voiceIdFor e;
     get_available_characters := name <$> snapshot e;
     format_message_with_character := fmt |}.

(** Modelled from the spec: the worlds reachable from process start by
    refresh calls, with the snapshots installed by the successful ones
    (most recent first). *)
Inductive reaches (ttl : Z) (remote : nat -> FetchResult)
    : World -> list (gmap Z CharacterRecord) -> Prop :=
| reaches_start : reaches ttl remote init_world []
| reaches_refresh w installed force now :
    reaches ttl remote w installed ->
    reaches ttl remote (refresh ttl remote force now w).2
      (match (refresh ttl remote force now w).1 with
       | Success _ =>
           snapshot (engine (refresh ttl remote force now w).2) :: installed
       | _ => installed
       end).

End Cache.

(** ** hashlib.md5 *)

Module Md5.

Local Open Scope N_scope.

Definition mask32 : N := 0xFFFFFFFF.
Definition add32 (a b : N) : N := N.land (a + b) mask32.
Definition not32 (a : N) : N := N.lxor a mask32.
Definition rotl32 (x s : N) : N :=
  N.land (N.lor (N.shiftl x s) (N.shiftr x (32 - s))) mask32.

(** Per-round shift amounts and the sine table. *)
Definition shifts : list N :=
  [7; 12; 17; 22; 7; 12; 17; 22; 7; 12; 17; 22; 7; 12; 17; 22;
   5; 9; 14; 20; 5; 9; 14; 20; 5; 9; 14; 20; 5; 9; 14; 20;
   4; 11; 16; 23; 4; 11; 16; 23; 4; 11; 16; 23; 4; 11; 16; 23;
   6; 10; 15; 21; 6; 10; 15; 21; 6; 10; 15; 21; 6; 10; 15; 21].

Definition sines : list N :=
  [ 0xd76aa478; 0xe8c7b756; 0x242070db; 0xc1bdceee;
    0xf57c0faf; 0x4787c62a; 0xa8304613; 0xfd469501;
    0x698098d8; 0x8b44f7af; 0xffff5bb1; 0x895cd7be;
    0x6b901122; 0xfd987193; 0xa679438e; 0x49b40821;
    0xf61e2562; 0xc040b340; 0x265e5a51; 0xe9b6c7aa;
    0xd62f105d; 0x02441453; 0xd8a1e681; 0xe7d3fbc8;
    0x21e1cde6; 0xc33707d6; 0xf4d50d87; 0x455a14ed;
    0xa9e3e905; 0xfcefa3f8; 0x676f02d9; 0x8d2a4c8a;
    0xfffa3942; 0x8771f681; 0x6d9d6122; 0xfde5380c;
    0xa4beea44; 0x4bdecfa9; 0xf6bb4b60; 0xbebfbc70;
    0x289b7ec6; 0xeaa127fa; 0xd4ef3085; 0x04881d05;
    0xd9d4d039; 0xe6db99e5; 0x1fa27cf8; 0xc4ac5665;
    0xf4292244; 0x432aff97; 0xab9423a7; 0xfc93a039;
    0x655b59c3; 0x8f0ccc92; 0xffeff47d; 0x85845dd1;
    0x6fa87e4f; 0xfe2ce6e0; 0xa3014314; 0x4e0811a1;
    0xf7537e82; 0xbd3af235; 0x2ad7d2bb; 0xeb86d391 ].

(** The message followed by the bit 1, zeros up to 56 modulo 64, and the
    bit length as 8 little-endian bytes. *)
Definition le_bytes (count : nat) (x : N) : list N :=
  map (fun k => N.land (N.shiftr x (8 * N.of_nat k)) 0xFF) (seq 0 count).

Definition pad (msg : list N) : list N :=
  let len := N.of_nat (length msg) in
  let zeros := (119 - len mod 64) mod 64 in
  msg ++ [0x80] ++ replicate (N.to_nat zeros) 0 ++
  le_bytes 8 (N.land (8 * len) 0xFFFFFFFFFFFFFFFF).

(** The [j]-th little-endian 32-bit word of a block. *)
Definition word (block : list N) (j : nat) : N :=
  nth (4 * j) block 0 +
  N.shiftl (nth (4 * j + 1) block 0) 8 +
  N.shiftl (nth (4 * j + 2) block 0) 16 +
  N.shiftl (nth (4 * j + 3) block 0) 24.

Definition State : Type := N * N * N * N.

Definition round (block : list N) (st : State) (i : nat) : State :=
  let '(a, b, c, d) := st in
  let '(f, g) :=
    if (i <? 16)%nat then (N.lor (N.land b c) (N.land (not32 b) d), i)
    else if (i <? 32)%nat
    then (N.lor (N.land d b) (N.land (not32 d) c), ((5 * i + 1) mod 16)%nat)
    else if (i <? 48)%nat
    then (N.lxor (N.lxor b c) d, ((3 * i + 5) mod 16)%nat)
    else (N.lxor c (N.lor b (not32 d)), ((7 * i) mod 16)%nat) in
  let f' := add32 (add32 (add32 f a) (nth i sines 0)) (word block g) in
  (d, add32 b (rotl32 f' (nth i shifts 0)), b, c).

Definition compress (st : State) (block : list N) : State :=
  let '(a0, b0, c0, d0) := st in
  let '(a, b, c, d) := foldl (round block) st (seq 0 64) in
  (add32 a0 a, add32 b0 b, add32 c0 c, add32 d0 d).

Fixpoint blocks (count : nat) (bytes : list N) : list (list N) :=
  match count with
  | O => []
  | S k => take 64 bytes :: blocks k (drop 64 bytes)
  end.

Definition initial : State :=
  (0x67452301, 0xefcdab89, 0x98badcfe, 0x10325476).

Definition digest (msg : list N) : list N :=
  let padded := pad msg in
  let '(a, b, c, d) :=
    foldl compress initial (blocks (length padded / 64) padded) in
  le_bytes 4 a ++ le_bytes 4 b ++ le_bytes 4 c ++ le_bytes 4 d.

Definition hex_digit (n : N) : ascii :=
  nth (N.to_nat n) (String.list_ascii_of_string "0123456789abcdef") "0"%char.

Definition hex_byte (b : N) : string :=
  String (hex_digit (N.shiftr b 4)) (String (hex_digit (N.land b 0xF)) "").

Definition bytes_of_string (s : string) : list N :=
  map Ascii.N_of_ascii (String.list_ascii_of_string s).

(** [hashlib.md5(s).hexdigest()] for the bytes [s]. *)
Definition hexdigest (s : string) : string :=
  foldr (fun b acc => hex_byte b +:+ acc) "" (digest (bytes_of_string s)).

End Md5.

(** ** json.dumps *)

Module Json.

Local Open Scope N_scope.

(** The code points of a text given by its UTF-8 bytes.  A byte that does
    not start a complete sequence is taken as a code point of its own;
    this does not happen for the UTF-8 encoding of a text. *)
Fixpoint code_points (bs : list N) : list N :=
  match bs with
  | [] => []
  | b0 :: r0 =>
      if b0 <? 0xC0 then b0 :: code_points r0
      else if b0 <? 0xE0 then
        match r0 with
        | b1 :: r1 =>
            (N.shiftl (N.land b0 0x1F) 6 + N.land b1 0x3F) :: code_points r1
        | _ => b0 :: code_points r0
        end
      else if b0 <? 0xF0 then
        match r0 with
        | b1 :: b2 :: r2 =>
            (N.shiftl (N.land b0 0x0F) 12 + N.shiftl (N.land b1 0x3F) 6 +
             N.land b2 0x3F) :: code_points r2
        | _ => b0 :: code_points r0
        end
      else
        match r0 with
        | b1 :: b2 :: b3 :: r3 =>
            (N.shiftl (N.land b0 0x07) 18 + N.shiftl (N.land b1 0x3F) 12 +
             N.shiftl (N.land b2 0x3F) 6 + N.land b3 0x3F) :: code_points r3
        | _ => b0 :: code_points r0
        end
  end.

Definition chr (c : N) : string := String (Ascii.ascii_of_N c) "".

Definition quote : string := chr 0x22.
Definition backslash : string := chr 0x5C.

(** [\uXXXX] with four lower-case hexadecimal digits. *)
Definition u_escape (c : N) : string :=
  backslash +:+ "u" +:+
  Md5.hex_byte (N.shiftr c 8) +:+ Md5.hex_byte (N.land c 0xFF).

(** The escape of one code point under [ensure_ascii=True]: printable
    ASCII other than the quote and the backslash stands for itself, the
    short escapes are used where they exist, and a code point above the
    basic plane becomes a surrogate pair. *)
Definition escape (c : N) : string :=
  if c =? 0x22 then backslash +:+ quote
  else if c =? 0x5C then backslash +:+ backslash
  else if c =? 0x0A then backslash +:+ "n"
  else if c =? 0x0D then backslash +:+ "r"
  else if c =? 0x09 then backslash +:+ "t"
  else if c =? 0x0C then backslash +:+ "f"
  else if c =? 0x08 then backslash +:+ "b"
  else if (0x20 <=? c) && (c <=? 0x7E) then chr c
  else if c <? 0x10000 then u_escape c
  else
    let n := c - 0x10000 in
    u_escape (N.lor 0xD800 (N.land (N.shiftr n 10) 0x3FF)) +:+
    u_escape (N.lor 0xDC00 (N.land n 0x3FF)).

(** A [str] as a JSON string literal. *)
Definition dumps_str (s : string) : string :=
  quote +:+
  foldr (fun c acc => escape c +:+ acc) ""
        (code_points (Md5.bytes_of_string s)) +:+
  quote.

(** An [Optional[int]] as a JSON value. *)
Definition dumps_opt_int (o : option Z) : string :=
  match o with
  | Some z => Py.str_of_int z
  | None => "null"
  end.

End Json.

(** ** http_api_server.py *)

Module HttpApi.

(** The values found in the dict returned by
    [FeishuService.get_character_full_data]. *)
Inductive PyValue :=
| PyNone
| PyBool (b : bool)
| PyInt (z : Z)
| PyStr (s : string).

(** The module-level [feishu_service]: [None] when the constructor of
    [FeishuService] raised, the service otherwise.  The class is imported
    from [feishu_service], which is not among the sources; a call of
    [get_character_full_data] either raises an exception [e] ([inl (str e)])
    or returns [None] or a dict. *)
Record FeishuService := {
  get_character_full_data : Z -> string + option (gmap string PyValue)
}.

(** The ["data"] object of a successful response. *)
Record CharacterData := {
  data_character_id : PyValue;
  data_name : PyValue;
  data_prompt : PyValue;
  data_voice_id : PyValue;
  data_available : PyValue
}.

(** The JSON body passed to [jsonify]. *)
Record Body := {
  success : bool;
  message : option string;
  data : option CharacterData
}.

(** A response: the body and the HTTP status ([200] when the handler
    returns the body alone). *)
Record Response := {
  body : Body;
  status : Z
}.

Definition fail (msg : string) (code : Z) : Response :=
  {| body := {| success := false; message := Some msg; data := None |};
     status := code |}.

Definition fallback_voice_id : string :=
  "moss_audio_af916082-2e36-11f0-92db-0e8893cbb430".

(** The ["data"] object the two handlers build from [character_data] with
    [dict.get]: the value stored under the key when it is present, the
    default otherwise ([None] for ["character_id"]). *)
Definition character_data_object (char_id : Z)
    (character_data : gmap string PyValue) : CharacterData :=
  {| data_character_id := default PyNone (character_data !! "character_id");
     data_name :=
       default (PyStr ("Character " +:+ Py.str_of_int char_id))
               (character_data !! "name");
     data_prompt := default (PyStr "") (character_data !! "prompt");
     data_voice_id :=
       default (PyStr fallback_voice_id) (character_data !! "voice_id");
     data_available :=
       default (PyBool true) (character_data !! "available") |}.

(** The documented treatment of one field: the value of the row when the
    row has the field, the default otherwise. *)
Definition field_served (row : gmap string PyValue) (key : string)
    (dflt served : PyValue) : Prop :=
  match row !! key with
  | Some v => served = v
  | None => served = dflt
  end.

(** The documented defaults, field by field, for a record [d] served for
    the row [row] fetched under [char_id].  The default name is written
    out: the word, a blank, and the signed decimal numeral of the id as the
    library prints it; the fallback voice id is written out as well.  The
    id of the record has no default other than null. *)
Definition applies_documented_defaults (char_id : Z)
    (row : gmap string PyValue) (d : CharacterData) : Prop :=
  field_served row "character_id" PyNone (data_character_id d) /\
  field_served row "name"
    (PyStr ("Character " +:+ pretty char_id)) (data_name d) /\
  field_served row "voice_id"
    (PyStr "moss_audio_af916082-2e36-11f0-92db-0e8893cbb430")
    (data_voice_id d) /\
  field_served row "prompt" (PyStr "") (data_prompt d) /\
  field_served row "available" (PyBool true) (data_available d).

(** Truth value of the [Optional[dict]] returned by the service. *)
Definition dict_truthy (d : option (gmap string PyValue)) : bool :=
  match d with
  | Some m => negb (bool_decide (m = ∅))
  | None => false
  end.

Section Endpoints.

(** Python's [int] on a [str]: [None] stands for [ValueError]. *)
Variable int : string -> option Z.

(** [GET /api/validate-character/<character_id>]. *)
Definition validate_character (feishu_service : option FeishuService)
    (character_id : string) : Response :=
  match feishu_service with
  | None => fail "Feishu service not available" 500
  | Some svc =>
      match int character_id with
      | None => fail "Character ID must be a number" 400
      | Some char_id =>
          match get_character_full_data svc char_id with
          | inl e => fail ("Server error: " +:+ e) 500
          | inr character_data =>
              if dict_truthy character_data
              then
                {| body :=
                     {| success := true;
                        message :=
                          Some "Character ID validated successfully";
                        data :=
                          Some (character_data_object char_id
                                  (default ∅ character_data)) |};
                   status := 200 |}
              else
                fail ("Character ID " +:+ Py.str_of_int char_id +:+
                      " not found") 404
          end
      end
  end.

(** [GET /api/character/<character_id>]. *)
Definition get_character (feishu_service : option FeishuService)
    (character_id : string) : Response :=
  match feishu_service with
  | None => fail "Feishu service not available" 500
  | Some svc =>
      match int character_id with
      | None => fail "Character ID must be a number" 400
      | Some char_id =>
          match get_character_full_data svc char_id with
          | inl e => fail ("Server error: " +:+ e) 500
          | inr character_data =>
              if dict_truthy character_data
              then
                {| body :=
                     {| success := true;
                        message := None;
                        data :=
                          Some (character_data_object char_id
                                  (default ∅ character_data)) |};
                   status := 200 |}
              else
                fail ("Character ID " +:+ Py.str_of_int char_id +:+
                      " not found") 404
          end
      end
  end.

End Endpoints.

(** A reader of the numerals [-?[0-9]+], on which it agrees with Python's
    [int] up to the interpreter's limit on the number of digits (4300 by
    default since Python 3.11, above which [int] raises [ValueError] and
    this reader still answers).  It is not Python's [int]: the other
    spellings Python accepts (surrounding blanks, a plus sign, underscores
    between digits, non-ASCII digits) are answered [None] here.  The
    endpoints are stated for an arbitrary [int]; this reader only supplies
    concrete inputs. *)
Fixpoint digits_value (acc : Z) (s : string) : option Z :=
  match s with
  | EmptyString => Some acc
  | String a rest =>
      let c := Z.of_N (Ascii.N_of_ascii a) in
      if (48 <=? c) && (c <=? 57)
      then digits_value (10 * acc + (c - 48)) rest
      else None
  end.

Definition int_of_numeral (s : string) : option Z :=
  match s with
  | EmptyString => None
  | String "-" EmptyString => None
  | String "-" rest => Z.opp <$> digits_value 0 rest
  | _ => digits_value 0 s
  end.

End HttpApi.

(** ** http_server.py *)

Module HttpServer.

(** The pydantic models [ChatRequest], [ChatResponse], [CharacterRequest]
    and [CharacterResponse]. *)
Record ChatRequest := {
  req_type : string;
  req_text : string;
  req_character_id : option Z;
  req_streaming : option bool;
  req_connection_id : option string
}.

Record ChatResponse := {
  response : string;
  voice_id : option string;
  character_id : option Z;
  character_name : option string;
  success : bool;
  error : option string;
  timestamp : option string
}.

Record CharacterRequest := {
  creq_character_id : Z
}.

Record CharacterResponse := {
  cres_character_id : Z;
  cres_character_name : string;
  cres_voice_id : string;
  cres_success : bool;
  cres_error : option string
}.

(** An element of a session's ["messages"] list. *)
Record SessionMessage := {
  msg_text : string;
  is_user : bool;
  msg_timestamp : string;
  is_error : bool
}.

(** A value of [chat_sessions]. *)
Record Session := {
  messages : list SessionMessage;
  session_character_id : Z;
  created_at : string
}.

(** The [message_data] dict built by [chat]. *)
Record MessageData := {
  md_type : string;
  md_text : string;
  md_character_id : option Z
}.

(** [json.dumps(message_data, sort_keys=True)]. *)
Definition dumps_message_data (d : MessageData) : string :=
  "{" +:+ Json.dumps_str "character_id" +:+ ": " +:+
  Json.dumps_opt_int (md_character_id d) +:+ ", " +:+
  Json.dumps_str "text" +:+ ": " +:+ Json.dumps_str (md_text d) +:+ ", " +:+
  Json.dumps_str "type" +:+ ": " +:+ Json.dumps_str (md_type d) +:+ "}".

(** [recent_messages] is a dict whose insertion order is observed by the
    clean-up, hence an association list in insertion order with at most
    one pair per key. *)
Fixpoint recent_get (k : string) (d : list (string * float)) : option float :=
  match d with
  | [] => None
  | (k', v) :: rest => if String.eqb k k' then Some v else recent_get k rest
  end.

(** [d[k] = v]: an existing key keeps its position. *)
Fixpoint recent_set (k : string) (v : float) (d : list (string * float))
    : list (string * float) :=
  match d with
  | [] => [(k, v)]
  | (k', v') :: rest =>
      if String.eqb k k' then (k, v) :: rest
      else (k', v') :: recent_set k v rest
  end.

(** [del d[k]]. *)
Definition recent_del (k : string) (d : list (string * float))
    : list (string * float) :=
  filter (fun p => negb (String.eqb k p.1) = true) d.

(** [sorted(d.keys(), key=lambda k: d[k])]: the sort is stable, so a pair
    goes behind the pairs whose time is not larger. *)
Fixpoint insert_by_time (p : string * float) (sorted : list (string * float))
    : list (string * float) :=
  match sorted with
  | [] => [p]
  | q :: rest =>
      if PrimFloat.ltb p.2 q.2 then p :: q :: rest
      else q :: insert_by_time p rest
  end.

Definition sorted_by_time (d : list (string * float)) : list string :=
  fst <$> foldl (fun acc p => insert_by_time p acc) [] d.

Definition message_key (client_id message_type : string)
    (message_data : MessageData) : string :=
  let message_hash := Md5.hexdigest (dumps_message_data message_data) in
  client_id +:+ "_" +:+ message_type +:+ "_" +:+ message_hash.

(** [is_duplicate_message(client_id, message_type, message_data)], called
    when [time.time()] is [current_time]; returns the answer and
    [recent_messages] afterwards. *)
Definition is_duplicate_message (client_id message_type : string)
    (message_data : MessageData) (current_time : float)
    (recent_messages : list (string * float))
    : bool * list (string * float) :=
  let key := message_key client_id message_type message_data in
  if match recent_get key recent_messages with
     | Some t => PrimFloat.ltb (PrimFloat.sub current_time t) 1%float
     | None => false
     end
  then (true, recent_messages)
  else
    let recent1 := recent_set key current_time recent_messages in
    let recent2 :=
      if (100 <? length recent1)%nat
      then
        let old_keys := take 50 (sorted_by_time recent1) in
        foldl (fun d k => recent_del k d) recent1 old_keys
      else recent1 in
    (false, recent2).

(** The module-level state of the server, and the calls made so far on the
    remote generative model. *)
Record App := {
  chat_sessions : gmap string Session;
  recent_messages : list (string * float);
  gemini_service : Gemini.GeminiService;
  model_calls : list Gemini.ModelCall
}.

(** What a handler obtains from outside the program during one request:
    [time.time()], the readings of [datetime.now()] by call site
    (0 session creation, 1 user message, 2 and 3 the two history entries,
    4 AI message, 5 response), [uuid.uuid4()], the behaviour of the remote
    model, and [str] on an [HTTPException]. *)
Record Env := {
  time_time : float;
  now : nat -> string;
  uuid4 : string;
  model_reply : Gemini.ModelCall -> string + string;
  str_http_exception : Z -> string -> string
}.

(** [get_or_create_session(connection_id)]. *)
Definition get_or_create_session (created : string) (connection_id : string)
    (sessions : gmap string Session) : gmap string Session :=
  match sessions !! connection_id with
  | Some _ => sessions
  | None =>
      <[connection_id :=
          {| messages := []; session_character_id := 1;
             created_at := created |}]> sessions
  end.

Definition set_session_character (c : Z) (s : Session) : Session :=
  {| messages := messages s; session_character_id := c;
     created_at := created_at s |}.

Definition append_message (m : SessionMessage) (s : Session) : Session :=
  {| messages := messages s ++ [m];
     session_character_id := session_character_id s;
     created_at := created_at s |}.

(** The two [ChatResponse] values that report a failure. *)
Definition failure_response (e : string) : ChatResponse :=
  {| response := ""; voice_id := None; character_id := None;
     character_name := None; success := false; error := Some e;
     timestamp := None |}.

Definition duplicate_response : ChatResponse :=
  failure_response "Duplicate message".

(** The module-level state when the server starts. *)
Definition initial_app : App :=
  {| chat_sessions := ∅; recent_messages := [];
     gemini_service := Gemini.init; model_calls := [] |}.

(** The key under which [chat] looks a request up in [recent_messages]. *)
Definition request_key (request : ChatRequest) : string :=
  message_key (Py.str_or (req_connection_id request) "anonymous")
    (req_type request)
    {| md_type := req_type request; md_text := req_text request;
       md_character_id := req_character_id request |}.

(** The answer of [is_duplicate_message] on the call that [chat] makes
    for a request. *)
Definition classified_duplicate (env : Env) (app : App)
    (request : ChatRequest) : bool :=
  (is_duplicate_message (Py.str_or (req_connection_id request) "anonymous")
     (req_type request)
     {| md_type := req_type request; md_text := req_text request;
        md_character_id := req_character_id request |}
     (time_time env) (recent_messages app)).1.

(** [POST /api/chat]. *)
Definition chat (cp : CharacterPrompts) (env : Env) (app : App)
    (request : ChatRequest) : ChatResponse * App :=
  let client_id := Py.str_or (req_connection_id request) "anonymous" in
  let message_data :=
    {| md_type := req_type request; md_text := req_text request;
       md_character_id := req_character_id request |} in
  let '(duplicate, recent) :=
    is_duplicate_message client_id (req_type request) message_data
      (time_time env) (recent_messages app) in
  if duplicate
  then
    (duplicate_response,
     {| chat_sessions := chat_sessions app; recent_messages := recent;
        gemini_service := gemini_service app;
        model_calls := model_calls app |})
  else
    let session_id :=
      if Py.opt_str_truthy (req_connection_id request)
      then default "" (req_connection_id request)
      else uuid4 env in
    let sessions1 :=
      get_or_create_session (now env 0%nat) session_id (chat_sessions app) in
    let sessions2 :=
      match req_character_id request with
      | Some c =>
          if negb (c =? 0)
          then alter (set_session_character c) session_id sessions1
          else sessions1
      | None => sessions1
      end in
    let user_message :=
      {| msg_text := req_text request; is_user := true;
         msg_timestamp := now env 1%nat; is_error := false |} in
    let sessions3 := alter (append_message user_message) session_id sessions2 in
    if String.eqb (req_type request) "text" ||
       String.eqb (req_type request) "gemini_chat"
    then
      let gemini1 :=
        match req_character_id request with
        | Some c =>
            if negb (c =? 0) &&
               negb (c =? Gemini.get_current_character_id (gemini_service app))
            then (Gemini.set_character cp (gemini_service app) c).1
            else gemini_service app
        | None => gemini_service app
        end in
      let '(gemini2, call, outcome) :=
        Gemini.send_message cp (model_reply env) (now env 2%nat)
          (now env 3%nat) gemini1 (req_text request) true
          (req_character_id request) in
      match outcome with
      | inr response_text =>
          let cid :=
            match req_character_id request with
            | Some c =>
                if negb (c =? 0) then c
                else Gemini.get_current_character_id gemini2
            | None => Gemini.get_current_character_id gemini2
            end in
          let ai_message :=
            {| msg_text := response_text; is_user := false;
               msg_timestamp := now env 4%nat; is_error := false |} in
          ({| response := response_text;
              voice_id := Some (get_character_voice_id cp cid);
              character_id := Some cid;
              character_name := Some (get_character_name cp cid);
              success := true; error := None;
              timestamp := Some (now env 5%nat) |},
           {| chat_sessions :=
                alter (append_message ai_message) session_id sessions3;
              recent_messages := recent;
              gemini_service := gemini2;
              model_calls := model_calls app ++ [call] |})
      | inl e =>
          (failure_response e,
           {| chat_sessions := sessions3; recent_messages := recent;
              gemini_service := gemini2;
              model_calls := model_calls app ++ [call] |})
      end
    else
      (failure_response
         (str_http_exception env 400
            ("Unsupported message type: " +:+ req_type request)),
       {| chat_sessions := sessions3; recent_messages := recent;
          gemini_service := gemini_service app;
          model_calls := model_calls app |}).

(** [POST /api/character]. *)
Definition get_character_info (cp : CharacterPrompts)
    (request : CharacterRequest) : CharacterResponse :=
  let character_name := get_character_name cp (creq_character_id request) in
  let voice := get_character_voice_id cp (creq_character_id request) in
  if Py.str_truthy character_name &&
     negb (String.eqb character_name "AI 助手")
  then
    {| cres_character_id := creq_character_id request;
       cres_character_name := character_name;
       cres_voice_id := voice;
       cres_success := true;
       cres_error := None |}
  else
    {| cres_character_id := creq_character_id request;
       cres_character_name := "未知角色";
       cres_voice_id := "moss_audio_af916082-2e36-11f0-92db-0e8893cbb430";
       cres_success := false;
       cres_error := Some "Character not found" |}.

(** The session that [chat] works on: the one of the connection id, or a
    fresh one under [uuid.uuid4()] when the request has none. *)
Definition session_id_of (env : Env) (request : ChatRequest) : string :=
  if Py.opt_str_truthy (req_connection_id request)
  then default "" (req_connection_id request)
  else uuid4 env.

(** A run of [chat] requests, each with the facade and the environment in
    force when it is served. *)
Definition run_chats (app : App)
    (steps : list (CharacterPrompts * Env * ChatRequest)) : App :=
  foldl (fun a s => (chat s.1.1 s.1.2 a s.2).2) app steps.

(** The ["messages"] of a [HistoryResponse]: the dicts of a session, or
    the entries of the Gemini history. *)
Inductive HistoryMessages :=
| SessionMessages (l : list SessionMessage)
| GeminiHistory (l : list Gemini.HistoryEntry).

Record HistoryResponse := {
  hist_messages : HistoryMessages;
  hist_success : bool;
  hist_error : option string
}.

(** [GET /api/history]. *)
Definition get_history (app : App) (connection_id : option string)
    : HistoryResponse :=
  match (if Py.opt_str_truthy connection_id
         then chat_sessions app !! default "" connection_id
         else None) with
  | Some session =>
      {| hist_messages := SessionMessages (messages session);
         hist_success := true; hist_error := None |}
  | None =>
      {| hist_messages :=
           GeminiHistory (Gemini.get_history (gemini_service app));
         hist_success := true; hist_error := None |}
  end.

Record ClearHistoryResponse := {
  clear_success : bool;
  clear_message : string;
  clear_error : option string
}.

Definition clear_messages (s : Session) : Session :=
  {| messages := []; session_character_id := session_character_id s;
     created_at := created_at s |}.

(** [POST /api/history/clear]. *)
Definition clear_history (app : App) (connection_id : option string)
    : ClearHistoryResponse * App :=
  match (if Py.opt_str_truthy connection_id
         then chat_sessions app !! default "" connection_id
         else None) with
  | Some _ =>
      ({| clear_success := true;
          clear_message := "Session history cleared successfully";
          clear_error := None |},
       {| chat_sessions :=
            alter clear_messages (default "" connection_id)
              (chat_sessions app);
          recent_messages := recent_messages app;
          gemini_service := gemini_service app;
          model_calls := model_calls app |})
  | None =>
      ({| clear_success := true;
          clear_message := "All history cleared successfully";
          clear_error := None |},
       {| chat_sessions := ∅;
          recent_messages := recent_messages app;
          gemini_service := Gemini.clear_history (gemini_service app);
          model_calls := model_calls app |})
  end.

(** The dict returned by [POST /api/character/set]. *)
Inductive SetCharacterResponse :=
| CharacterSet (current_id : Z) (current_name : string) (message : string)
| CharacterNotSet (message : string).

(** [POST /api/character/set]. *)
Definition set_character (cp : CharacterPrompts) (app : App)
    (request : CharacterRequest) : SetCharacterResponse * App :=
  let character_id := creq_character_id request in
  if bool_decide (is_Some (get_available_characters cp !! character_id))
  then
    let gemini' :=
      (Gemini.set_character cp (gemini_service app) character_id).1 in
    (CharacterSet (Gemini.get_current_character_id gemini')
       (Gemini.get_current_character cp gemini')
       ("Character set to: " +:+ Gemini.get_current_character cp gemini' +:+
        " (ID: " +:+
        Py.str_of_int (Gemini.get_current_character_id gemini') +:+ ")"),
     {| chat_sessions := chat_sessions app;
        recent_messages := recent_messages app;
        gemini_service := gemini';
        model_calls := model_calls app |})
  else
    (CharacterNotSet
       ("Character " +:+ Py.str_of_int character_id +:+ " not found"),
     app).

Record CharacterMapResponse := {
  character_map : gmap string string;
  map_success : bool;
  map_error : option string
}.

(** [GET /api/character/map]: the keys become their decimal strings. *)
Definition get_character_map (cp : CharacterPrompts) : CharacterMapResponse :=
  {| character_map := kmap Py.str_of_int (get_available_characters cp);
     map_success := true; map_error := None |}.

Record TTSRequest := {
  tts_req_type : string;
  tts_req_text : string;
  tts_req_character_id : Z
}.

Record TTSResponse := {
  tts_type : string;
  tts_text : string;
  tts_character_id : Z;
  tts_character_name : string;
  tts_voice_id : string;
  tts_message : string;
  tts_timestamp : string;
  tts_success : bool;
  tts_error : option string
}.

(** [POST /api/tts]; [stamp] is the clock reading put in the response. *)
Definition text_to_speech (cp : CharacterPrompts) (stamp : string)
    (request : TTSRequest) : TTSResponse :=
  if negb (Py.str_truthy (tts_req_text request))
  then
    {| tts_type := "error"; tts_text := ""; tts_character_id := 0;
       tts_character_name := ""; tts_voice_id := "";
       tts_message := "text is required for text_to_speech request";
       tts_timestamp := stamp; tts_success := false;
       tts_error := Some "text is required" |}
  else
    {| tts_type := "tts_info"; tts_text := tts_req_text request;
       tts_character_id := tts_req_character_id request;
       tts_character_name :=
         get_character_name cp (tts_req_character_id request);
       tts_voice_id :=
         get_character_voice_id cp (tts_req_character_id request);
       tts_message := "TTS should be handled on iPhone side";
       tts_timestamp := stamp; tts_success := true; tts_error := None |}.

End HttpServer.

(** ** Sample data

    Concrete inputs on which the properties below are instantiated. *)

Module Sample.

(** The rows of the scenario of the specification's section 8. *)
Definition rows : list Cache.RawRow :=
  [ {| Cache.row_id := Some 1; Cache.row_name := Some "A";
       Cache.row_prompt := None; Cache.row_voiceId := Some "v1";
       Cache.row_available := None |};
    {| Cache.row_id := Some 2; Cache.row_name := Some "B";
       Cache.row_prompt := None; Cache.row_voiceId := None;
       Cache.row_available := None |} ].

(** A row without id, which does not parse. *)
Definition bad_row : Cache.RawRow :=
  {| Cache.row_id := None; Cache.row_name := Some "C";
     Cache.row_prompt := None; Cache.row_voiceId := None;
     Cache.row_available := None |}.

Definition ttl : Z := 300.

(** A remote source that answers the rows first, then times out, then
    sends a malformed row, then answers the rows again. *)
Definition remote (n : nat) : Cache.FetchResult :=
  match n with
  | 0%nat => Cache.FetchRows rows
  | 1%nat => Cache.FetchFailed "timeout"
  | 2%nat => Cache.FetchRows [bad_row]
  | _ => Cache.FetchRows rows
  end.

(** A remote source that is down. *)
Definition remote_down (n : nat) : Cache.FetchResult :=
  Cache.FetchFailed "unavailable".

(** The world after one refresh at time 5 against the source that is
    down. *)
Definition world_down : Cache.World :=
  (Cache.refresh ttl remote_down false 5 Cache.init_world).2.

(** The world after one forced refresh at time 0. *)
Definition world1 : Cache.World :=
  (Cache.refresh ttl remote true 0 Cache.init_world).2.

(** A prompt formatter and the facade over [world1]. *)
Definition fmt (message : string) (character_id : Z) : string :=
  "[" +:+ Py.str_of_int character_id +:+ "] " +:+ message.

Definition prompts : CharacterPrompts :=
  Cache.character_prompts fmt (Cache.engine world1).

(** A Feishu service that knows the characters 1 and 2. *)
Definition feishu : HttpApi.FeishuService :=
  {| HttpApi.get_character_full_data := fun i =>
       inr (if i =? 1
            then Some (<["character_id" := HttpApi.PyInt 1]>
                       (<["name" := HttpApi.PyStr "A"]>
                        (<["voice_id" := HttpApi.PyStr "v1"]> ∅)))
            else if i =? 2
            then Some (<["character_id" := HttpApi.PyInt 2]>
                       (<["name" := HttpApi.PyStr "B"]> ∅))
            else None) |}.

(** The row stored for character 5: no name, prompt or availability, and
    an id of its own. *)
Definition sparse_row : gmap string HttpApi.PyValue :=
  <["character_id" := HttpApi.PyInt 7]>
    (<["voice_id" := HttpApi.PyStr "v5"]> ∅).

(** A service with sparse rows: [sparse_row] for character 5, the empty
    dict for character 9, nothing for the others. *)
Definition feishu_sparse : HttpApi.FeishuService :=
  {| HttpApi.get_character_full_data := fun i =>
       inr (if i =? 5 then Some sparse_row
            else if i =? 9 then Some ∅
            else None) |}.

(** A request environment at clock reading [t]: the model echoes the
    formatted message. *)
Definition env_at (t : float) : HttpServer.Env :=
  {| HttpServer.time_time := t;
     HttpServer.now := fun k => "2025-01-01T00:00:0" +:+ pretty k;
     HttpServer.uuid4 := "3f2b8c1e-0000-4000-8000-000000000001";
     HttpServer.model_reply := fun call =>
       match call with
       | Gemini.StartChatSend _ m => inr ("re: " +:+ m)
       | Gemini.GenerateContent m => inr ("re: " +:+ m)
       end;
     HttpServer.str_http_exception := fun code detail =>
       Py.str_of_int code +:+ ": " +:+ detail |}.

(** The same chat message sent under the connection id ["anonymous"] and
    without connection id, and for a character absent from the snapshot. *)
Definition request_named : HttpServer.ChatRequest :=
  {| HttpServer.req_type := "text"; HttpServer.req_text := "hi";
     HttpServer.req_character_id := Some 1;
     HttpServer.req_streaming := Some false;
     HttpServer.req_connection_id := Some "anonymous" |}.

Definition request_anonymous : HttpServer.ChatRequest :=
  {| HttpServer.req_type := "text"; HttpServer.req_text := "hi";
     HttpServer.req_character_id := Some 1;
     HttpServer.req_streaming := Some false;
     HttpServer.req_connection_id := None |}.

Definition request_unknown : HttpServer.ChatRequest :=
  {| HttpServer.req_type := "text"; HttpServer.req_text := "hi";
     HttpServer.req_character_id := Some 3;
     HttpServer.req_streaming := Some false;
     HttpServer.req_connection_id := Some "phone-1" |}.

(** The [k]-th of a burst of distinct messages of one client, and
    [recent_messages] after 101 of them were checked at time 1000. *)
Definition burst_message (k : nat) : HttpServer.MessageData :=
  {| HttpServer.md_type := "text"; HttpServer.md_text := "m" +:+ pretty k;
     HttpServer.md_character_id := Some 1 |}.

Definition recent_after_burst : list (string * float) :=
  foldl (fun recent k =>
           (HttpServer.is_duplicate_message "c" "text" (burst_message k)
              1000%float recent).2)
        [] (seq 1 101).

(** The server state after [request_named] was served at time 1000. *)
Definition app1 : HttpServer.App :=
  (HttpServer.chat prompts (env_at 1000%float) HttpServer.initial_app
     request_named).2.

End Sample.

(** * Properties *)

(** ** Conversation history of [GeminiService] *)

Section History.

Import Gemini.

Lemma last_n_length {A} (n : nat) (l : list A) :
  length (Py.last_n n l) = (length l `min` n)%nat.
Proof. unfold Py.last_n. rewrite length_drop. lia. Qed.

Lemma last_n_snoc {A} (n : nat) (l : list A) (x : A) :
  Py.last_n n (Py.last_n n l ++ [x]) = Py.last_n n (l ++ [x]).
Proof.
  unfold Py.last_n.
  destruct (decide (n = 0)%nat) as [-> | Hn].
  { rewrite !Nat.sub_0_r, !drop_all. reflexivity. }
  rewrite !length_app, length_drop. simpl.
  destruct (decide (length l <= n)%nat) as [Hle | Hgt].
  - replace (length l - n)%nat with 0%nat by lia.
    rewrite drop_0. f_equal. lia.
  - replace (length l - (length l - n) + 1 - n)%nat with 1%nat by lia.
    rewrite (drop_app_le l [x] (length l + 1 - n)) by lia.
    rewrite (drop_app_le (drop (length l - n) l) [x] 1)
      by (rewrite length_drop; lia).
    rewrite drop_drop. f_equal. f_equal. lia.
Qed.

(** [l[-n:]] is [Py.last_n n l] whenever [n] is positive. *)
Lemma slice_from_neg {A} (n : Z) (l : list A) :
  0 < n -> Py.slice_from (- n) l = Py.last_n (Z.to_nat n) l.
Proof.
  intros Hn. unfold Py.slice_from, Py.last_n.
  destruct (Z.ltb_spec (- n) 0) as [_ | ?]; [| lia].
  f_equal. lia.
Qed.

Lemma add_to_history_last_n self r c t :
  max_history_length self = 50 ->
  conversation_history (add_to_history self r c t) =
    Py.last_n 50 (conversation_history self ++ [entry_of (r, c, t)]).
Proof.
  intros Hmax. unfold add_to_history. simpl. rewrite Hmax.
  destruct (Z.ltb_spec 50
    (Z.of_nat (length (conversation_history self ++
       [{| role := r; content := c; timestamp := t |}])))) as [Hlt | Hge].
  - now rewrite slice_from_neg by lia.
  - unfold Py.last_n, entry_of. simpl.
    match goal with |- _ = drop ?k _ => replace k with 0%nat by lia end.
    reflexivity.
Qed.

Lemma add_to_history_max self r c t :
  max_history_length (add_to_history self r c t) = max_history_length self.
Proof. reflexivity. Qed.

Lemma add_to_history_character self r c t :
  current_character_id (add_to_history self r c t) =
    current_character_id self.
Proof. reflexivity. Qed.

Lemma add_all_snoc self calls c :
  add_all self (calls ++ [c]) =
    add_to_history (add_all self calls) c.1.1 c.1.2 c.2.
Proof. unfold add_all. now rewrite foldl_app. Qed.

Lemma add_all_max self calls :
  max_history_length (add_all self calls) = max_history_length self.
Proof.
  induction calls as [| c calls IH] using rev_ind; [reflexivity |].
  now rewrite add_all_snoc, add_to_history_max.
Qed.

Lemma add_all_last_n self calls :
  max_history_length self = 50 ->
  calls <> [] ->
  conversation_history (add_all self calls) =
    Py.last_n 50 (conversation_history self ++ map entry_of calls).
Proof.
  intros Hmax.
  induction calls as [| c calls IH] using rev_ind; [congruence |].
  intros _. rewrite add_all_snoc.
  rewrite add_to_history_last_n by now rewrite add_all_max.
  rewrite map_app, app_assoc. simpl.
  destruct calls as [| c0 calls].
  - simpl. rewrite app_nil_r. now destruct c as [[? ?] ?].
  - rewrite IH by congruence. rewrite last_n_snoc.
    now destruct c as [[? ?] ?].
Qed.

(** C8.  On a service whose [max_history_length] is 50, after any
    non-empty run of [add_to_history] calls the history holds at most 50
    entries, and it is exactly the last 50 entries (fewer when fewer
    exist) of the earlier history followed by the added entries, in
    order. *)
Theorem add_to_history_keeps_most_recent_50 :
  forall (self : GeminiService) (calls : list (string * string * string)),
    max_history_length self = 50 ->
    calls <> [] ->
    (length (conversation_history (add_all self calls)) <= 50)%nat /\
    conversation_history (add_all self calls) =
      Py.last_n 50 (conversation_history self ++ map entry_of calls) /\
    max_history_length (add_all self calls) = 50.
Proof.
  intros self calls Hmax Hne.
  rewrite add_all_last_n by assumption.
  rewrite last_n_length, add_all_max.
  repeat split; [lia | assumption].
Qed.

Lemma add_to_history_keeps_most_recent_50_witness :
  (length (conversation_history
     (add_all init [("user", "hi", "t0"); ("assistant", "hello", "t1")]))
     <= 50)%nat /\
  conversation_history
    (add_all init [("user", "hi", "t0"); ("assistant", "hello", "t1")]) =
    Py.last_n 50 (conversation_history init ++
               map entry_of [("user", "hi", "t0");
                             ("assistant", "hello", "t1")]) /\
  max_history_length
    (add_all init [("user", "hi", "t0"); ("assistant", "hello", "t1")]) = 50.
Proof.
  apply (add_to_history_keeps_most_recent_50 init
           [("user", "hi", "t0"); ("assistant", "hello", "t1")]).
  - reflexivity.
  - discriminate.
Defined.

(** On a fresh service, 52 calls leave the entries of calls 3 to 52. *)
Example add_to_history_52_calls :
  let calls := map (fun k => ("user", pretty k, "t")) (seq 1 52) in
  content <$> conversation_history (add_all init calls) =
    map pretty (seq 3 50).
Proof. vm_compute. reflexivity. Qed.

End History.

(** ** The current character of [GeminiService] *)

Section Character.

Import Gemini.

(** C9.  [set_character] on an id outside the available-characters mapping
    returns the service unchanged and only writes the warning record; on
    an id inside the mapping it sets [current_character_id] to that id and
    leaves the history and its bound as they were. *)
Theorem set_character_frame :
  forall (cp : CharacterPrompts) (self : GeminiService) (character_id : Z),
    (get_available_characters cp !! character_id = None ->
       set_character cp self character_id =
         (self, LogUnknownCharacter character_id
                  (get_available_characters cp))) /\
    (is_Some (get_available_characters cp !! character_id) ->
       current_character_id (set_character cp self character_id).1 =
         character_id /\
       conversation_history (set_character cp self character_id).1 =
         conversation_history self /\
       max_history_length (set_character cp self character_id).1 =
         max_history_length self).
Proof.
  intros cp self character_id. unfold set_character. split.
  - intros Hnone. rewrite bool_decide_eq_false_2; [reflexivity |].
    rewrite Hnone. intros [? ?]. discriminate.
  - intros Hsome. rewrite bool_decide_eq_true_2 by assumption.
    simpl. auto.
Qed.

End Character.

(** ** The cache engine *)

Section CacheEngine.

Import Cache.

Variable ttl : Z.
Variable remote : nat -> FetchResult.

Lemma refresh_skipped force now w :
  negb force && younger_than_ttl ttl (engine w) now = true ->
  refresh ttl remote force now w = (Skipped, w).
Proof. intros H. unfold refresh. now rewrite H. Qed.

Lemma refresh_fetches force now w :
  negb force && younger_than_ttl ttl (engine w) now = false ->
  refresh ttl remote force now w =
    ((install now (engine w) (remote (fetch_count w))).1,
     {| engine := (install now (engine w) (remote (fetch_count w))).2;
        fetch_count := S (fetch_count w) |}).
Proof.
  intros H. unfold refresh. rewrite H.
  now destruct (install now (engine w) (remote (fetch_count w))).
Qed.

(** A refresh leaves the number of remote calls alone or adds one. *)
Lemma refresh_fetch_count force now w :
  fetch_count (refresh ttl remote force now w).2 = fetch_count w \/
  fetch_count (refresh ttl remote force now w).2 = S (fetch_count w).
Proof.
  destruct (negb force && younger_than_ttl ttl (engine w) now) eqn:H.
  - left. now rewrite refresh_skipped.
  - right. now rewrite refresh_fetches.
Qed.

Lemma install_failed_fetch now e d :
  install now e (FetchFailed d) =
    (Failed (RemoteUnavailable d),
     {| snapshot := snapshot e; lastRefreshedAt := lastRefreshedAt e;
        sourceRowCount := sourceRowCount e;
        lastError := Some (RemoteUnavailable d) |}).
Proof. reflexivity. Qed.

Lemma install_failed_parse now e rows :
  parse_rows rows = None ->
  install now e (FetchRows rows) =
    (Failed (ParseError "malformed row"),
     {| snapshot := snapshot e; lastRefreshedAt := lastRefreshedAt e;
        sourceRowCount := sourceRowCount e;
        lastError := Some (ParseError "malformed row") |}).
Proof. intros H. unfold install. now rewrite H. Qed.

Lemma install_success now e rows recs :
  parse_rows rows = Some recs ->
  install now e (FetchRows rows) =
    (Success (length recs),
     {| snapshot := build_snapshot recs; lastRefreshedAt := Some now;
        sourceRowCount := length rows; lastError := lastError e |}).
Proof. intros H. unfold install. now rewrite H. Qed.

(** The three outcomes of [install], by cause. *)
Lemma install_cases now e answer :
  (exists err,
     (install now e answer).1 = Failed err /\
     snapshot (install now e answer).2 = snapshot e /\
     lastRefreshedAt (install now e answer).2 = lastRefreshedAt e /\
     lastError (install now e answer).2 = Some err /\
     ((exists d, answer = FetchFailed d) \/
      (exists rows, answer = FetchRows rows /\ parse_rows rows = None))) \/
  (exists rows recs,
     answer = FetchRows rows /\ parse_rows rows = Some recs /\
     (install now e answer).1 = Success (length recs) /\
     snapshot (install now e answer).2 = build_snapshot recs /\
     lastRefreshedAt (install now e answer).2 = Some now).
Proof.
  destruct answer as [d | rows].
  - left. exists (RemoteUnavailable d). rewrite install_failed_fetch.
    simpl. eauto 10.
  - destruct (parse_rows rows) as [recs |] eqn:Hp.
    + right. exists rows, recs. rewrite (install_success _ _ _ _ Hp).
      simpl. auto.
    + left. exists (ParseError "malformed row").
      rewrite (install_failed_parse _ _ _ Hp). simpl. eauto 10.
Qed.

(** C1.  A refresh that reaches the remote source and whose fetch fails,
    or whose rows do not parse, returns [Failed], leaves the snapshot
    mapping and [lastRefreshedAt] as they were, so that every lookup
    answers as before, and leaves a non-null [lastError] in the status. *)
Theorem failed_refresh_keeps_snapshot :
  forall (force : bool) (now : Z) (w : World),
    negb force && younger_than_ttl ttl (engine w) now = false ->
    (exists d, remote (fetch_count w) = FetchFailed d) \/
    (exists rows, remote (fetch_count w) = FetchRows rows /\
                  parse_rows rows = None) ->
    (exists err, (refresh ttl remote force now w).1 = Failed err) /\
    snapshot (engine (refresh ttl remote force now w).2) =
      snapshot (engine w) /\
    lastRefreshedAt (engine (refresh ttl remote force now w).2) =
      lastRefreshedAt (engine w) /\
    (forall i, lookup (engine (refresh ttl remote force now w).2) i =
               lookup (engine w) i) /\
    (forall later,
       status_lastError
         (getStatus ttl (engine (refresh ttl remote force now w).2) later)
         <> None).
Proof.
  intros force now w Hgo Hbad. rewrite (refresh_fetches _ _ _ Hgo). simpl.
  destruct Hbad as [[d Hd] | [rows [Hr Hp]]].
  - rewrite Hd, install_failed_fetch. simpl.
    repeat split; eauto; discriminate.
  - rewrite Hr, (install_failed_parse _ _ _ Hp). simpl.
    repeat split; eauto; discriminate.
Qed.

(** The converse reading: a refresh that returns [Failed] kept the
    snapshot, whatever the cause. *)
Lemma refresh_failed_inv force now w err :
  (refresh ttl remote force now w).1 = Failed err ->
  snapshot (engine (refresh ttl remote force now w).2) =
    snapshot (engine w) /\
  lastRefreshedAt (engine (refresh ttl remote force now w).2) =
    lastRefreshedAt (engine w) /\
  lastError (engine (refresh ttl remote force now w).2) = Some err.
Proof.
  destruct (negb force && younger_than_ttl ttl (engine w) now) eqn:Hgo.
  - rewrite (refresh_skipped _ _ _ Hgo). discriminate.
  - rewrite (refresh_fetches _ _ _ Hgo). simpl.
    destruct (install_cases now (engine w) (remote (fetch_count w)))
      as [(err' & Hres & Hs & Ht & He & _) | (rows & recs & _ & _ & Hres & _)].
    + rewrite Hres. intros [= <-]. auto.
    + rewrite Hres. discriminate.
Qed.

(** C5.  A non-forced refresh made while the snapshot is younger than the
    TTL returns [Skipped] and changes nothing, the count of remote calls
    included; a forced refresh always makes exactly one remote call,
    whatever the age of the snapshot; and two non-forced refreshes make at
    most one remote call between them when the second falls in the TTL
    window of the snapshot in use after the first, which is the case when
    they are less than one TTL apart and the first does not fail (a failed
    refresh installs no snapshot, so it opens no TTL window). *)
Theorem refresh_respects_ttl :
  forall (w : World),
    (forall now,
       younger_than_ttl ttl (engine w) now = true ->
       refresh ttl remote false now w = (Skipped, w)) /\
    (forall now,
       fetch_count (refresh ttl remote true now w).2 = S (fetch_count w) /\
       (refresh ttl remote true now w).1 <> Skipped) /\
    (forall t1 t2,
       younger_than_ttl ttl (engine (refresh ttl remote false t1 w).2) t2 =
         true ->
       (fetch_count
          (refresh ttl remote false t2 (refresh ttl remote false t1 w).2).2
        <= S (fetch_count w))%nat) /\
    (forall t1 t2,
       t2 - t1 < ttl ->
       (forall err, (refresh ttl remote false t1 w).1 <> Failed err) ->
       (fetch_count
          (refresh ttl remote false t2 (refresh ttl remote false t1 w).2).2
        <= S (fetch_count w))%nat).
Proof.
  intros w. split; [| split; [| split]].
  - intros now Hy. apply refresh_skipped. now rewrite Hy.
  - intros now. rewrite refresh_fetches by reflexivity. simpl.
    split; [reflexivity |].
    destruct (install_cases now (engine w) (remote (fetch_count w)))
      as [(err & Hres & _) | (rows & recs & _ & _ & Hres & _)];
      rewrite Hres; discriminate.
  - intros t1 t2 Hy. rewrite (refresh_skipped false t2) by now rewrite Hy.
    simpl. destruct (refresh_fetch_count false t1 w) as [-> | ->]; lia.
  - intros t1 t2 Hwin Hok.
    destruct (negb false && younger_than_ttl ttl (engine w) t1) eqn:Hgo.
    + rewrite (refresh_skipped _ _ _ Hgo). simpl.
      destruct (refresh_fetch_count false t2 w) as [-> | ->]; lia.
    + rewrite (refresh_fetches _ _ _ Hgo) in *. simpl in *.
      destruct (install_cases t1 (engine w) (remote (fetch_count w)))
        as [(err & Hres & _) | (rows & recs & _ & _ & _ & _ & Hat)].
      * exfalso. apply (Hok err). exact Hres.
      * rewrite refresh_skipped; [simpl; lia |].
        unfold younger_than_ttl. simpl. rewrite Hat. simpl.
        apply Z.ltb_lt. exact Hwin.
Qed.

End CacheEngine.

Lemma set_character_frame_witness :
  Gemini.set_character Sample.prompts Gemini.init 7 =
    (Gemini.init,
     Gemini.LogUnknownCharacter 7 (get_available_characters Sample.prompts)) /\
  Gemini.current_character_id
    (Gemini.set_character Sample.prompts Gemini.init 2).1 = 2 /\
  Gemini.conversation_history
    (Gemini.set_character Sample.prompts Gemini.init 2).1 =
    Gemini.conversation_history Gemini.init /\
  Gemini.max_history_length
    (Gemini.set_character Sample.prompts Gemini.init 2).1 =
    Gemini.max_history_length Gemini.init.
Proof.
  split.
  - apply (proj1 (set_character_frame Sample.prompts Gemini.init 7)).
    vm_compute. reflexivity.
  - apply (proj2 (set_character_frame Sample.prompts Gemini.init 2)).
    vm_compute. eexists. reflexivity.
Defined.

Lemma failed_refresh_keeps_snapshot_witness :
  (exists err,
     (Cache.refresh Sample.ttl Sample.remote true 10 Sample.world1).1 =
       Cache.Failed err) /\
  Cache.snapshot
    (Cache.engine
       (Cache.refresh Sample.ttl Sample.remote true 10 Sample.world1).2) =
    Cache.snapshot (Cache.engine Sample.world1) /\
  Cache.lastRefreshedAt
    (Cache.engine
       (Cache.refresh Sample.ttl Sample.remote true 10 Sample.world1).2) =
    Cache.lastRefreshedAt (Cache.engine Sample.world1) /\
  (forall i,
     Cache.lookup
       (Cache.engine
          (Cache.refresh Sample.ttl Sample.remote true 10 Sample.world1).2) i =
     Cache.lookup (Cache.engine Sample.world1) i) /\
  (forall later,
     Cache.status_lastError
       (Cache.getStatus Sample.ttl
          (Cache.engine
             (Cache.refresh Sample.ttl Sample.remote true 10 Sample.world1).2)
          later) <> None).
Proof.
  apply (failed_refresh_keeps_snapshot Sample.ttl Sample.remote true 10
           Sample.world1).
  - reflexivity.
  - left. exists "timeout". reflexivity.
Defined.

Lemma refresh_respects_ttl_witness :
  Cache.refresh Sample.ttl Sample.remote false 299 Sample.world1 =
    (Cache.Skipped, Sample.world1) /\
  (Cache.fetch_count
     (Cache.refresh Sample.ttl Sample.remote false 250
        (Cache.refresh Sample.ttl Sample.remote false 20
           Sample.world1).2).2 <= S (Cache.fetch_count Sample.world1))%nat /\
  (Cache.fetch_count
     (Cache.refresh Sample.ttl Sample.remote false 200
        (Cache.refresh Sample.ttl Sample.remote false 100
           Cache.init_world).2).2 <= 1)%nat.
Proof.
  split; [| split].
  - apply (proj1 (refresh_respects_ttl Sample.ttl Sample.remote Sample.world1)).
    vm_compute. reflexivity.
  - apply (proj1 (proj2 (proj2 (refresh_respects_ttl Sample.ttl Sample.remote
                                  Sample.world1))) 20 250).
    vm_compute. reflexivity.
  - apply (proj2 (proj2 (proj2 (refresh_respects_ttl Sample.ttl Sample.remote
                                  Cache.init_world))) 100 200).
    + vm_compute. reflexivity.
    + intros err. vm_compute. discriminate.
Defined.

(** ** What a snapshot holds *)

Section Snapshots.

Import Cache.






Lemma build_snapshot_snoc recs c :
  build_snapshot (recs ++ [c]) = <[id c := c]> (build_snapshot recs).
Proof. unfold build_snapshot. now rewrite foldl_app. Qed.


(** A binding of the snapshot is one of the records, under its own id. *)
Lemma build_snapshot_sound recs i c :
  build_snapshot recs !! i = Some c -> c ∈ recs /\ id c = i.
Proof.
  induction recs as [| c0 recs IH] using rev_ind.
  - unfold build_snapshot. simpl. rewrite lookup_empty. discriminate.
  - rewrite build_snapshot_snoc.
    destruct (decide (id c0 = i)) as [<- | Hne].
    + rewrite lookup_insert_eq. intros [= <-].
      split; [apply elem_of_app; right; left | reflexivity].
    + rewrite lookup_insert_ne by assumption. intros H.
      destruct (IH H). split; [apply elem_of_app; left |]; assumption.
Qed.


Variable ttl : Z.
Variable remote : nat -> FetchResult.

(** The snapshot changes only in a refresh that returns [Success], and is
    then the mapping built from the rows just fetched. *)
Lemma refresh_outcome force now w :
  ((forall n, (refresh ttl remote force now w).1 <> Success n) /\
   snapshot (engine (refresh ttl remote force now w).2) =
     snapshot (engine w)) \/
  (exists rows recs,
     remote (fetch_count w) = FetchRows rows /\
     parse_rows rows = Some recs /\
     (refresh ttl remote force now w).1 = Success (length recs) /\
     snapshot (engine (refresh ttl remote force now w).2) =
       build_snapshot recs).
Proof.
  destruct (negb force && younger_than_ttl ttl (engine w) now) eqn:Hgo.
  - left. rewrite (refresh_skipped _ _ _ _ _ Hgo). simpl.
    split; [discriminate | reflexivity].
  - rewrite (refresh_fetches _ _ _ _ _ Hgo). simpl.
    destruct (install_cases now (engine w) (remote (fetch_count w)))
      as [(err & Hres & Hs & _) | (rows & recs & Ha & Hp & Hres & Hs & _)].
    + left. rewrite Hres. split; [discriminate | assumption].
    + right. exists rows, recs. auto.
Qed.


(** The snapshot in use is the one installed last, or the empty one. *)
Lemma reaches_snapshot w installed :
  reaches ttl remote w installed ->
  snapshot (engine w) = default ∅ (head installed).
Proof.
  induction 1 as [| w installed force now _ IH]; [reflexivity |].
  destruct (refresh_outcome force now w)
    as [[Hno Hsame] | (rows & recs & _ & _ & Hres & _)].
  - rewrite Hsame, IH.
    destruct ((refresh ttl remote force now w).1) as [| n |];
      [reflexivity | destruct (Hno n eq_refl) | reflexivity].
  - rewrite Hres. reflexivity.
Qed.

(** C4.  In a world reached from process start, an id that is in none of
    the snapshots installed by the successful refreshes gets the generic
    fallback label from [nameFor] and the fixed default voice id from
    [voiceIdFor]; both are total functions, they have no failing case. *)
Theorem unknown_id_gets_fallbacks :
  forall (w : World) (installed : list (gmap Z CharacterRecord)) (i : Z),
    reaches ttl remote w installed ->
    (forall s, s ∈ installed -> s !! i = None) ->
    nameFor (engine w) i = fallback_label /\
    voiceIdFor (engine w) i = default_voice_id.
Proof.
  intros w installed i Hr Hout.
  assert (lookup (engine w) i = None) as Hl.
  { unfold lookup. rewrite (reaches_snapshot _ _ Hr).
    destruct installed as [| s rest]; simpl.
    - apply lookup_empty.
    - apply Hout. left. }
  unfold nameFor, voiceIdFor. now rewrite Hl.
Qed.

(** C7.  In a world reached from process start through refreshes none of
    which succeeded, the snapshot mapping is empty and [lookup] answers
    not-found for every id. *)
Theorem no_success_snapshot_empty :
  forall (w : World),
    reaches ttl remote w [] ->
    snapshot (engine w) = ∅ /\
    (forall i, lookup (engine w) i = None) /\
    availableIds (engine w) = ∅.
Proof.
  intros w Hr. pose proof (reaches_snapshot _ _ Hr) as Hs. simpl in Hs.
  unfold lookup, availableIds. rewrite Hs.
  split; [reflexivity |].
  split; [intros i; apply lookup_empty | apply dom_empty_L].
Qed.

End Snapshots.


(** The scenario of the specification's section 8: after the refresh,
    [lookup(2).voiceId] is the default voice id and [lookup(1).voiceId] is
    ["v1"]. *)
Example scenario_voice_ids :
  Cache.voiceId <$> Cache.lookup (Cache.engine Sample.world1) 2 =
    Some Cache.default_voice_id /\
  Cache.voiceId <$> Cache.lookup (Cache.engine Sample.world1) 1 = Some "v1" /\
  Cache.name <$> Cache.lookup (Cache.engine Sample.world1) 2 = Some "B".
Proof. vm_compute. repeat split. Qed.

Lemma unknown_id_gets_fallbacks_witness :
  Cache.nameFor (Cache.engine Sample.world1) 3 = Cache.fallback_label /\
  Cache.voiceIdFor (Cache.engine Sample.world1) 3 = Cache.default_voice_id.
Proof.
  apply (unknown_id_gets_fallbacks Sample.ttl Sample.remote Sample.world1
           [Cache.snapshot (Cache.engine Sample.world1)] 3).
  - exact (Cache.reaches_refresh Sample.ttl Sample.remote Cache.init_world []
             true 0 (Cache.reaches_start Sample.ttl Sample.remote)).
  - intros s Hs. apply list_elem_of_singleton in Hs. subst s.
    vm_compute. reflexivity.
Defined.

Lemma no_success_snapshot_empty_witness :
  Cache.snapshot (Cache.engine Sample.world_down) = ∅ /\
  (forall i, Cache.lookup (Cache.engine Sample.world_down) i = None) /\
  Cache.availableIds (Cache.engine Sample.world_down) = ∅.
Proof.
  apply (no_success_snapshot_empty Sample.ttl Sample.remote_down
           Sample.world_down).
  exact (Cache.reaches_refresh Sample.ttl Sample.remote_down Cache.init_world
           [] false 5 (Cache.reaches_start Sample.ttl Sample.remote_down)).
Defined.

(** ** Served character records ([http_api_server.py]) *)

Section ServedRecords.

Import HttpApi.

Variable int : string -> option Z.

Lemma character_data_object_defaults char_id row :
  applies_documented_defaults char_id row (character_data_object char_id row).
Proof.
  unfold applies_documented_defaults, field_served, character_data_object,
    fallback_voice_id, Py.str_of_int.
  simpl.
  destruct (row !! "character_id"), (row !! "name"), (row !! "voice_id"),
    (row !! "prompt"), (row !! "available"); simpl; auto 6.
Qed.

Lemma dict_falsy_empty : dict_truthy (Some ∅) = false.
Proof. unfold dict_truthy. now rewrite bool_decide_eq_true_2. Qed.

Lemma dict_truthy_row row : row <> ∅ -> dict_truthy (Some row) = true.
Proof.
  intros Hne. unfold dict_truthy.
  now rewrite bool_decide_eq_false_2.
Qed.

(** C2, as the code has it.  For a row that the service returns for the
    requested id, both lookup endpoints do one of two things.  When the
    row is not the empty dict they answer 200 with a record in which every
    field the row has is the row's value, and in which an absent name is
    ["Character "] followed by the decimal numeral of the requested id, an
    absent voice id the fixed fallback voice id, an absent prompt the
    empty string, an absent availability true and an absent character id
    null.  When the row is the empty dict they answer 404 and serve no
    record. *)
Theorem served_record_applies_defaults :
  forall (svc : FeishuService) (character_id : string) (char_id : Z)
         (row : gmap string PyValue),
    int character_id = Some char_id ->
    get_character_full_data svc char_id = inr (Some row) ->
    (row <> ∅ ->
     (status (validate_character int (Some svc) character_id) = 200 /\
      exists d,
        data (body (validate_character int (Some svc) character_id)) =
          Some d /\
        applies_documented_defaults char_id row d) /\
     (status (get_character int (Some svc) character_id) = 200 /\
      exists d,
        data (body (get_character int (Some svc) character_id)) = Some d /\
        applies_documented_defaults char_id row d)) /\
    (row = ∅ ->
     status (validate_character int (Some svc) character_id) = 404 /\
     data (body (validate_character int (Some svc) character_id)) = None /\
     status (get_character int (Some svc) character_id) = 404 /\
     data (body (get_character int (Some svc) character_id)) = None).
Proof.
  intros svc character_id char_id row Hint Hrow.
  unfold validate_character, get_character.
  rewrite Hint, Hrow. split.
  - intros Hne. rewrite (dict_truthy_row _ Hne). simpl.
    split; (split; [reflexivity |]);
      exists (character_data_object char_id row);
      (split; [reflexivity | apply character_data_object_defaults]).
  - intros ->. rewrite dict_falsy_empty. simpl. auto.
Qed.

End ServedRecords.

Lemma served_record_applies_defaults_witness :
  ((HttpApi.status
      (HttpApi.validate_character HttpApi.int_of_numeral
         (Some Sample.feishu_sparse) "5") = 200 /\
    exists d,
      HttpApi.data
        (HttpApi.body
           (HttpApi.validate_character HttpApi.int_of_numeral
              (Some Sample.feishu_sparse) "5")) = Some d /\
      HttpApi.applies_documented_defaults 5 Sample.sparse_row d) /\
   (HttpApi.status
      (HttpApi.get_character HttpApi.int_of_numeral
         (Some Sample.feishu_sparse) "5") = 200 /\
    exists d,
      HttpApi.data
        (HttpApi.body
           (HttpApi.get_character HttpApi.int_of_numeral
              (Some Sample.feishu_sparse) "5")) = Some d /\
      HttpApi.applies_documented_defaults 5 Sample.sparse_row d)) /\
  (HttpApi.status
     (HttpApi.validate_character HttpApi.int_of_numeral
        (Some Sample.feishu_sparse) "9") = 404 /\
   HttpApi.data
     (HttpApi.body
        (HttpApi.validate_character HttpApi.int_of_numeral
           (Some Sample.feishu_sparse) "9")) = None /\
   HttpApi.status
     (HttpApi.get_character HttpApi.int_of_numeral
        (Some Sample.feishu_sparse) "9") = 404 /\
   HttpApi.data
     (HttpApi.body
        (HttpApi.get_character HttpApi.int_of_numeral
           (Some Sample.feishu_sparse) "9")) = None).
Proof.
  split.
  - apply (proj1 (served_record_applies_defaults HttpApi.int_of_numeral
                    Sample.feishu_sparse "5" 5 Sample.sparse_row
                    eq_refl eq_refl)).
    intros Hempty.
    assert (Sample.sparse_row !! "voice_id" = None) as Habs
      by (rewrite Hempty; apply lookup_empty).
    vm_compute in Habs. discriminate.
  - apply (proj2 (served_record_applies_defaults HttpApi.int_of_numeral
                    Sample.feishu_sparse "9" 9 ∅ eq_refl eq_refl)).
    reflexivity.
Defined.

(** The row stored for character 9 is the empty dict, and a lookup of 9
    serves no record: both endpoints answer 404 without data, so no default
    is applied to any of its absent fields.  And the default name follows
    the id of the request, not the id in the row: the row fetched for
    character 5 says 7 and is served as ["Character 5"]. *)
Lemma empty_row_serves_no_record :
  HttpApi.get_character_full_data Sample.feishu_sparse 9 = inr (Some ∅) /\
  HttpApi.status
    (HttpApi.validate_character HttpApi.int_of_numeral
       (Some Sample.feishu_sparse) "9") = 404 /\
  HttpApi.data
    (HttpApi.body
       (HttpApi.validate_character HttpApi.int_of_numeral
          (Some Sample.feishu_sparse) "9")) = None /\
  HttpApi.status
    (HttpApi.get_character HttpApi.int_of_numeral
       (Some Sample.feishu_sparse) "9") = 404 /\
  HttpApi.data
    (HttpApi.body
       (HttpApi.get_character HttpApi.int_of_numeral
          (Some Sample.feishu_sparse) "9")) = None /\
  HttpApi.get_character_full_data Sample.feishu_sparse 5 =
    inr (Some Sample.sparse_row) /\
  Sample.sparse_row !! "character_id" = Some (HttpApi.PyInt 7) /\
  HttpApi.data_name <$>
    HttpApi.data
      (HttpApi.body
         (HttpApi.validate_character HttpApi.int_of_numeral
            (Some Sample.feishu_sparse) "5")) =
    Some (HttpApi.PyStr "Character 5").
Proof. vm_compute. repeat split. Qed.

(** The record served for the sparse row of character 5, written out: the
    row's id and voice id, and the defaults for the three absent fields. *)
Example served_record_for_sparse_row :
  HttpApi.data
    (HttpApi.body
       (HttpApi.validate_character HttpApi.int_of_numeral
          (Some Sample.feishu_sparse) "5")) =
  Some {| HttpApi.data_character_id := HttpApi.PyInt 7;
          HttpApi.data_name := HttpApi.PyStr "Character 5";
          HttpApi.data_prompt := HttpApi.PyStr "";
          HttpApi.data_voice_id := HttpApi.PyStr "v5";
          HttpApi.data_available := HttpApi.PyBool true |}.
Proof. vm_compute. reflexivity. Qed.

(** What the documented defaults demand of any record served for that row,
    and for a row with nothing but a prompt fetched under a negative and
    under a several-digit id. *)
Example documented_defaults_written_out :
  (forall d,
     HttpApi.applies_documented_defaults 5 Sample.sparse_row d ->
     d = {| HttpApi.data_character_id := HttpApi.PyInt 7;
            HttpApi.data_name := HttpApi.PyStr "Character 5";
            HttpApi.data_prompt := HttpApi.PyStr "";
            HttpApi.data_voice_id := HttpApi.PyStr "v5";
            HttpApi.data_available := HttpApi.PyBool true |}) /\
  (forall d,
     HttpApi.applies_documented_defaults (-12)
       (<["prompt" := HttpApi.PyStr "p"]> ∅) d ->
     d = {| HttpApi.data_character_id := HttpApi.PyNone;
            HttpApi.data_name := HttpApi.PyStr "Character -12";
            HttpApi.data_prompt := HttpApi.PyStr "p";
            HttpApi.data_voice_id :=
              HttpApi.PyStr "moss_audio_af916082-2e36-11f0-92db-0e8893cbb430";
            HttpApi.data_available := HttpApi.PyBool true |}) /\
  HttpApi.data_name
    (HttpApi.character_data_object 4300 (<["prompt" := HttpApi.PyStr "p"]> ∅)) =
    HttpApi.PyStr "Character 4300".
Proof.
  split; [| split].
  - intros [i n p v a] H. vm_compute in H.
    destruct H as (-> & -> & -> & -> & ->). reflexivity.
  - intros [i n p v a] H. vm_compute in H.
    destruct H as (-> & -> & -> & -> & ->). reflexivity.
  - vm_compute. reflexivity.
Qed.

(** The record served for character 2 of the sample service, whose row has
    no voice id, prompt or availability. *)
Example served_record_for_2 :
  HttpApi.data
    (HttpApi.body
       (HttpApi.validate_character HttpApi.int_of_numeral
          (Some Sample.feishu) "2")) =
  Some {| HttpApi.data_character_id := HttpApi.PyInt 2;
          HttpApi.data_name := HttpApi.PyStr "B";
          HttpApi.data_prompt := HttpApi.PyStr "";
          HttpApi.data_voice_id := HttpApi.PyStr HttpApi.fallback_voice_id;
          HttpApi.data_available := HttpApi.PyBool true |}.
Proof. vm_compute. reflexivity. Qed.

(** A row that is the empty dict is falsy: it is answered 404. *)
Example empty_row_not_served :
  HttpApi.status
    (HttpApi.validate_character HttpApi.int_of_numeral
       (Some {| HttpApi.get_character_full_data := fun _ => inr (Some ∅) |})
       "1") = 404.
Proof. vm_compute. reflexivity. Qed.

(** ** Digests and keys *)

(** The digest function agrees with the reference digests of the empty
    message, of one and of two blocks. *)
Example md5_reference_digests :
  Md5.hexdigest "" = "d41d8cd98f00b204e9800998ecf8427e" /\
  Md5.hexdigest "abc" = "900150983cd24fb0d6963f7d28e17f72" /\
  Md5.hexdigest
    "12345678901234567890123456789012345678901234567890123456789012345678901234567890" =
    "57edf4a22be3c955ac49da2e2107b67a".
Proof. vm_compute. repeat split. Qed.

(** Non-ASCII text is escaped code point by code point, with a surrogate
    pair above the basic plane. *)
Example dumps_str_escapes :
  Json.dumps_str "助手😀" =
    Json.quote +:+ "\u52a9\u624b\ud83d\ude00" +:+ Json.quote.
Proof. vm_compute. reflexivity. Qed.

Example request_key_sample :
  HttpServer.request_key Sample.request_named =
    "anonymous_text_e04a76459ea8b26d59ed9708fee1d97b".
Proof. vm_compute. reflexivity. Qed.

(** ** Duplicate chat requests ([http_server.py]) *)

Section Duplicates.

Import HttpServer.

Lemma is_duplicate_message_hit client ty d current recent t :
  recent_get (message_key client ty d) recent = Some t ->
  PrimFloat.ltb (PrimFloat.sub current t) 1 = true ->
  is_duplicate_message client ty d current recent = (true, recent).
Proof.
  intros Hget Hlt. unfold is_duplicate_message. simpl.
  now rewrite Hget, Hlt.
Qed.

Lemma is_duplicate_message_miss client ty d current recent :
  recent_get (message_key client ty d) recent = None ->
  (is_duplicate_message client ty d current recent).1 = false.
Proof.
  intros Hget. unfold is_duplicate_message. simpl. now rewrite Hget.
Qed.

Lemma is_duplicate_message_stale client ty d current recent t :
  recent_get (message_key client ty d) recent = Some t ->
  PrimFloat.ltb (PrimFloat.sub current t) 1 = false ->
  (is_duplicate_message client ty d current recent).1 = false.
Proof.
  intros Hget Hlt. unfold is_duplicate_message. simpl.
  now rewrite Hget, Hlt.
Qed.

(** [chat] on a request classified as a duplicate. *)
Lemma chat_duplicate cp env app request :
  classified_duplicate env app request = true ->
  chat cp env app request = (duplicate_response, app).
Proof.
  unfold classified_duplicate, chat, is_duplicate_message. simpl.
  destruct (match recent_get _ (recent_messages app) with
            | Some t => _
            | None => false
            end); [| discriminate].
  intros _. now destruct app.
Qed.

(** C10, as the code has it.  A chat request whose key (the client id,
    which is the connection id or ["anonymous"] when that is absent or
    empty, then the type, then the MD5 digest of the JSON of type, text and
    character id) has an entry in [recent_messages] less than 1.0 seconds
    old is answered with [success=false] and error ["Duplicate message"],
    and the whole server state (sessions, history, calls on the model) is
    left as it was; a request whose key has no entry is not classified as a
    duplicate; and requests that agree on client id, type, text and
    character id have the same key. *)
Theorem duplicate_chat_request :
  forall (cp : CharacterPrompts) (env : Env) (app : App) (request : ChatRequest),
    (forall t,
       recent_get (request_key request) (recent_messages app) = Some t ->
       PrimFloat.ltb (PrimFloat.sub (time_time env) t) 1 = true ->
       classified_duplicate env app request = true /\
       chat cp env app request = (duplicate_response, app) /\
       success duplicate_response = false /\
       error duplicate_response = Some "Duplicate message") /\
    (recent_get (request_key request) (recent_messages app) = None ->
     classified_duplicate env app request = false) /\
    (forall request',
       Py.str_or (req_connection_id request') "anonymous" =
         Py.str_or (req_connection_id request) "anonymous" ->
       req_type request' = req_type request ->
       req_text request' = req_text request ->
       req_character_id request' = req_character_id request ->
       request_key request' = request_key request).
Proof.
  intros cp env app request. split; [| split].
  - intros t Hget Hlt.
    assert (classified_duplicate env app request = true) as Hdup.
    { unfold classified_duplicate.
      now rewrite (is_duplicate_message_hit _ _ _ _ _ t Hget Hlt). }
    split; [exact Hdup |]. split; [now apply chat_duplicate |].
    split; reflexivity.
  - intros Hget. unfold classified_duplicate.
    now apply is_duplicate_message_miss.
  - intros request' Hc Ht Hx Hi. unfold request_key.
    now rewrite Hc, Ht, Hx, Hi.
Qed.

End Duplicates.

Lemma duplicate_chat_request_witness :
  (HttpServer.classified_duplicate (Sample.env_at 1000.5%float) Sample.app1
     Sample.request_named = true /\
   HttpServer.chat Sample.prompts (Sample.env_at 1000.5%float) Sample.app1
     Sample.request_named = (HttpServer.duplicate_response, Sample.app1) /\
   HttpServer.success HttpServer.duplicate_response = false /\
   HttpServer.error HttpServer.duplicate_response =
     Some "Duplicate message") /\
  HttpServer.classified_duplicate (Sample.env_at 1000.5%float) Sample.app1
    Sample.request_unknown = false /\
  HttpServer.request_key Sample.request_anonymous =
    HttpServer.request_key Sample.request_named.
Proof.
  split; [| split].
  - apply (proj1 (duplicate_chat_request Sample.prompts
                    (Sample.env_at 1000.5%float) Sample.app1
                    Sample.request_named) 1000%float).
    + vm_compute. reflexivity.
    + vm_compute. reflexivity.
  - apply (proj1 (proj2 (duplicate_chat_request Sample.prompts
                           (Sample.env_at 1000.5%float) Sample.app1
                           Sample.request_unknown))).
    vm_compute. reflexivity.
  - apply (proj2 (proj2 (duplicate_chat_request Sample.prompts
                           (Sample.env_at 1000.5%float) Sample.app1
                           Sample.request_named)) Sample.request_anonymous);
      reflexivity.
Defined.

(** A request without connection id, whose (connection_id, type, text,
    character_id) tuple was never seen, is classified as a duplicate half a
    second after the same message arrived under the connection id
    ["anonymous"].  And the first message of a burst of 101 distinct
    messages recorded at time 1000 is not classified as a duplicate half a
    second later: the clean-up removed its entry. *)
Lemma duplicate_check_misclassifies :
  (HttpServer.is_duplicate_message "c" "text" (Sample.burst_message 1)
     1000%float []).2 <> [] /\
  HttpServer.recent_get
    (HttpServer.message_key "c" "text" (Sample.burst_message 1))
    Sample.recent_after_burst = None /\
  (HttpServer.is_duplicate_message "c" "text" (Sample.burst_message 1)
     1000.5%float Sample.recent_after_burst).1 = false /\
  HttpServer.recent_messages HttpServer.initial_app = [] /\
  Sample.app1 =
    (HttpServer.chat Sample.prompts (Sample.env_at 1000%float)
       HttpServer.initial_app Sample.request_named).2 /\
  HttpServer.req_connection_id Sample.request_anonymous <>
    HttpServer.req_connection_id Sample.request_named /\
  HttpServer.classified_duplicate (Sample.env_at 1000.5%float) Sample.app1
    Sample.request_anonymous = true /\
  (HttpServer.chat Sample.prompts (Sample.env_at 1000.5%float) Sample.app1
     Sample.request_anonymous).1 = HttpServer.duplicate_response.
Proof.
  split; [vm_compute; discriminate |].
  split; [vm_compute; reflexivity |].
  split; [vm_compute; reflexivity |].
  split; [reflexivity |]. split; [reflexivity |].
  split; [discriminate |].
  split; vm_compute; reflexivity.
Qed.

(** ** Cache and remote problems at the endpoints *)

Section EndpointFailures.

Import HttpServer.

(** [send_message] returns the reply of the model when the model replies. *)
Lemma send_message_replies cp reply now1 now2 self message ctx cid :
  (forall call, exists text, reply call = inr text) ->
  exists text,
    (Gemini.send_message cp reply now1 now2 self message ctx cid).2 =
      inr text.
Proof.
  intros Hreply. unfold Gemini.send_message.
  match goal with |- context [reply ?c] => destruct (Hreply c) as [t Ht] end.
  rewrite Ht. eauto.
Qed.

(** A chat request that is not a duplicate, of a supported type, and whose
    model call is answered, is answered with the names that
    [character_prompts] gives for the requested character. *)
Lemma chat_answers cp env app request c :
  req_character_id request = Some c -> c <> 0 ->
  classified_duplicate env app request = false ->
  req_type request = "text" \/ req_type request = "gemini_chat" ->
  (forall call, exists text, model_reply env call = inr text) ->
  success (chat cp env app request).1 = true /\
  error (chat cp env app request).1 = None /\
  character_id (chat cp env app request).1 = Some c /\
  character_name (chat cp env app request).1 =
    Some (get_character_name cp c) /\
  voice_id (chat cp env app request).1 = Some (get_character_voice_id cp c).
Proof.
  intros Hc Hnz Hdup Hty Hreply. unfold classified_duplicate in Hdup.
  unfold chat.
  destruct (is_duplicate_message _ _ _ _ _) as [dup recent]. simpl in Hdup.
  subst dup. rewrite Hc.
  assert (String.eqb (req_type request) "text" ||
          String.eqb (req_type request) "gemini_chat" = true) as ->.
  { destruct Hty as [-> | ->]; reflexivity. }
  assert (negb (c =? 0) = true) as ->.
  { apply negb_true_iff, Z.eqb_neq. exact Hnz. }
  match goal with
  | |- context [Gemini.send_message ?a ?b ?n1 ?n2 ?g ?m ?x ?i] =>
      destruct (send_message_replies a b n1 n2 g m x i Hreply) as [t Ht];
      destruct (Gemini.send_message a b n1 n2 g m x i) as [[g2 call] outcome]
  end.
  simpl in Ht. subst outcome. simpl. auto.
Qed.

(** C3, as the code has it.  A chat request for a character absent from
    the snapshot is answered [success=true] with the fallback label and the
    default voice id, provided it is not a duplicate, its type is
    supported and the model replies.  The character-lookup endpoints
    report cache and remote problems in their own responses: the two
    endpoints of [http_api_server.py] answer 500 when the service is
    unavailable or raises and 404 when it has no data for the id, and
    [POST /api/character] answers [success=false] with error
    ["Character not found"] and the default voice id for an id absent from
    the snapshot. *)
Theorem cache_problems_by_endpoint :
  (forall fmt e env app request c,
     req_character_id request = Some c -> c <> 0 ->
     Cache.lookup e c = None ->
     classified_duplicate env app request = false ->
     req_type request = "text" \/ req_type request = "gemini_chat" ->
     (forall call, exists text, model_reply env call = inr text) ->
     success (chat (Cache.character_prompts fmt e) env app request).1 = true /\
     error (chat (Cache.character_prompts fmt e) env app request).1 = None /\
     character_id (chat (Cache.character_prompts fmt e) env app request).1 =
       Some c /\
     character_name (chat (Cache.character_prompts fmt e) env app request).1 =
       Some Cache.fallback_label /\
     voice_id (chat (Cache.character_prompts fmt e) env app request).1 =
       Some Cache.default_voice_id) /\
  (forall int s,
     HttpApi.validate_character int None s =
       HttpApi.fail "Feishu service not available" 500 /\
     HttpApi.get_character int None s =
       HttpApi.fail "Feishu service not available" 500) /\
  (forall int svc s i detail,
     int s = Some i ->
     HttpApi.get_character_full_data svc i = inl detail ->
     HttpApi.validate_character int (Some svc) s =
       HttpApi.fail ("Server error: " +:+ detail) 500 /\
     HttpApi.get_character int (Some svc) s =
       HttpApi.fail ("Server error: " +:+ detail) 500) /\
  (forall int svc s i,
     int s = Some i ->
     HttpApi.get_character_full_data svc i = inr None ->
     HttpApi.validate_character int (Some svc) s =
       HttpApi.fail ("Character ID " +:+ Py.str_of_int i +:+ " not found")
         404 /\
     HttpApi.get_character int (Some svc) s =
       HttpApi.fail ("Character ID " +:+ Py.str_of_int i +:+ " not found")
         404) /\
  (forall fmt e i,
     Cache.lookup e i = None ->
     get_character_info (Cache.character_prompts fmt e)
       {| creq_character_id := i |} =
       {| cres_character_id := i;
          cres_character_name := "未知角色";
          cres_voice_id := Cache.default_voice_id;
          cres_success := false;
          cres_error := Some "Character not found" |}).
Proof.
  split; [| split; [| split; [| split]]].
  - intros fmt e env app request c Hc Hnz Hl Hdup Hty Hreply.
    destruct (chat_answers (Cache.character_prompts fmt e) env app request c
                Hc Hnz Hdup Hty Hreply) as (Hs & He & Hi & Hn & Hv).
    simpl in Hn, Hv. unfold Cache.nameFor in Hn. unfold Cache.voiceIdFor in Hv.
    rewrite Hl in Hn, Hv. auto.
  - intros int s. split; reflexivity.
  - intros int svc s i detail Hint Hraise.
    unfold HttpApi.validate_character, HttpApi.get_character.
    rewrite Hint, Hraise. split; reflexivity.
  - intros int svc s i Hint Hnone.
    unfold HttpApi.validate_character, HttpApi.get_character.
    rewrite Hint, Hnone. split; reflexivity.
  - intros fmt e i Hl. unfold get_character_info. simpl.
    unfold Cache.nameFor. rewrite Hl. reflexivity.
Qed.

End EndpointFailures.

Lemma cache_problems_by_endpoint_witness :
  (HttpServer.success
     (HttpServer.chat (Cache.character_prompts Sample.fmt
                         (Cache.engine Sample.world1))
        (Sample.env_at 1000.5%float) Sample.app1 Sample.request_unknown).1 =
     true /\
   HttpServer.error
     (HttpServer.chat (Cache.character_prompts Sample.fmt
                         (Cache.engine Sample.world1))
        (Sample.env_at 1000.5%float) Sample.app1 Sample.request_unknown).1 =
     None /\
   HttpServer.character_id
     (HttpServer.chat (Cache.character_prompts Sample.fmt
                         (Cache.engine Sample.world1))
        (Sample.env_at 1000.5%float) Sample.app1 Sample.request_unknown).1 =
     Some 3 /\
   HttpServer.character_name
     (HttpServer.chat (Cache.character_prompts Sample.fmt
                         (Cache.engine Sample.world1))
        (Sample.env_at 1000.5%float) Sample.app1 Sample.request_unknown).1 =
     Some Cache.fallback_label /\
   HttpServer.voice_id
     (HttpServer.chat (Cache.character_prompts Sample.fmt
                         (Cache.engine Sample.world1))
        (Sample.env_at 1000.5%float) Sample.app1 Sample.request_unknown).1 =
     Some Cache.default_voice_id) /\
  (HttpApi.validate_character HttpApi.int_of_numeral (Some Sample.feishu) "3" =
     HttpApi.fail ("Character ID " +:+ Py.str_of_int 3 +:+ " not found") 404 /\
   HttpApi.get_character HttpApi.int_of_numeral (Some Sample.feishu) "3" =
     HttpApi.fail ("Character ID " +:+ Py.str_of_int 3 +:+ " not found") 404) /\
  HttpServer.get_character_info
    (Cache.character_prompts Sample.fmt (Cache.engine Sample.world1))
    {| HttpServer.creq_character_id := 3 |} =
    {| HttpServer.cres_character_id := 3;
       HttpServer.cres_character_name := "未知角色";
       HttpServer.cres_voice_id := Cache.default_voice_id;
       HttpServer.cres_success := false;
       HttpServer.cres_error := Some "Character not found" |}.
Proof.
  split; [| split].
  - apply (proj1 cache_problems_by_endpoint Sample.fmt
             (Cache.engine Sample.world1) (Sample.env_at 1000.5%float)
             Sample.app1 Sample.request_unknown 3).
    + reflexivity.
    + discriminate.
    + vm_compute. reflexivity.
    + vm_compute. reflexivity.
    + left. reflexivity.
    + intros call. destruct call; eexists; reflexivity.
  - apply (proj1 (proj2 (proj2 (proj2 cache_problems_by_endpoint)))
             HttpApi.int_of_numeral Sample.feishu "3" 3).
    + reflexivity.
    + reflexivity.
  - apply (proj2 (proj2 (proj2 (proj2 cache_problems_by_endpoint)))
             Sample.fmt (Cache.engine Sample.world1) 3).
    vm_compute. reflexivity.
Defined.

(** A character lookup made while the Feishu service is unavailable is
    answered with status 500 and [success=false], and one for an id the
    service does not know with status 404: the caller receives an error
    response, not fallback values. *)
Lemma character_lookup_fails_on_cache_problems :
  HttpApi.status
    (HttpApi.validate_character HttpApi.int_of_numeral None "1") = 500 /\
  HttpApi.success
    (HttpApi.body
       (HttpApi.validate_character HttpApi.int_of_numeral None "1")) = false /\
  HttpApi.data
    (HttpApi.body
       (HttpApi.validate_character HttpApi.int_of_numeral None "1")) = None /\
  HttpApi.status
    (HttpApi.get_character HttpApi.int_of_numeral (Some Sample.feishu) "3") =
    404 /\
  HttpServer.cres_success
    (HttpServer.get_character_info Sample.prompts
       {| HttpServer.creq_character_id := 3 |}) = false.
Proof. vm_compute. repeat split. Qed.

(** * Further properties of the sources *)

(** ** Context messages, summary and model calls of [GeminiService] *)

Section GeminiContext.

Import Gemini.

Lemma get_context_messages_app self h1 h2 :
  get_context_messages (with_history self (h1 ++ h2)) =
    get_context_messages (with_history self h1) ++
    get_context_messages (with_history self h2).
Proof. unfold get_context_messages. simpl. apply flat_map_app. Qed.

Lemma get_context_messages_with_history self :
  get_context_messages (with_history self (conversation_history self)) =
    get_context_messages self.
Proof. reflexivity. Qed.

(** [get_context_messages] yields one message per history entry whose role
    is ["user"] or ["assistant"], in history order: its role is ["user"]
    or ["model"] accordingly and its single part is the entry's content.
    Entries with any other role are left out. *)
Theorem context_messages_follow_history :
  forall (self : GeminiService),
    Forall (fun m => (ctx_role m = "user" \/ ctx_role m = "model") /\
                     length (ctx_parts m) = 1%nat)
           (get_context_messages self) /\
    concat (ctx_parts <$> get_context_messages self) =
      content <$> filter (fun m => role m = "user" \/ role m = "assistant")
                    (conversation_history self) /\
    ctx_role <$> get_context_messages self =
      (fun m => if String.eqb (role m) "user" then "user" else "model") <$>
        filter (fun m => role m = "user" \/ role m = "assistant")
          (conversation_history self).
Proof.
  intros self. unfold get_context_messages.
  induction (conversation_history self) as [| m h (IH1 & IH2 & IH3)].
  - repeat split. constructor.
  - cbn [flat_map].
    rewrite !fmap_app, concat_app, Forall_app, filter_cons, IH2, IH3.
    destruct (String.eqb_spec (role m) "user") as [Hu | Hu].
    + rewrite decide_True by auto. rewrite !fmap_cons.
      destruct (String.eqb_spec (role m) "user"); [| contradiction].
      repeat split; auto.
    + destruct (String.eqb_spec (role m) "assistant") as [Ha | Ha].
      * rewrite decide_True by auto. rewrite !fmap_cons.
        destruct (String.eqb_spec (role m) "user"); [contradiction |].
        repeat split; auto.
      * rewrite decide_False by (intros [? | ?]; contradiction).
        repeat split; auto.
Qed.

Lemma context_messages_count self :
  length (get_context_messages self) =
    length (filter (fun m => role m = "user" \/ role m = "assistant")
              (conversation_history self)).
Proof.
  unfold get_context_messages.
  induction (conversation_history self) as [| m h IH]; [reflexivity |].
  cbn [flat_map]. rewrite length_app, filter_cons, IH.
  destruct (String.eqb_spec (role m) "user") as [Hu | Hu].
  - rewrite decide_True by auto. reflexivity.
  - destruct (String.eqb_spec (role m) "assistant") as [Ha | Ha].
    + rewrite decide_True by auto. reflexivity.
    + rewrite decide_False by (intros [? | ?]; contradiction). reflexivity.
Qed.

Lemma filter_role_length (h : list HistoryEntry) :
  (length (filter (fun m => role m = "user") h) +
   length (filter (fun m => role m = "assistant") h))%nat =
  length (filter (fun m => role m = "user" \/ role m = "assistant") h).
Proof.
  induction h as [| m h IH]; [reflexivity |].
  rewrite !filter_cons.
  destruct (decide (role m = "user")) as [Hu | Hu];
    destruct (decide (role m = "assistant")) as [Ha | Ha].
  - rewrite Hu in Ha. discriminate.
  - rewrite decide_True by auto. simpl. lia.
  - rewrite decide_True by auto. simpl. lia.
  - rewrite decide_False by tauto. lia.
Qed.

(** In [get_conversation_summary] the user and assistant counts add up to
    the number of context messages and never exceed the total; the last
    message time is absent exactly for an empty history. *)
Theorem conversation_summary_counts :
  forall (cp : CharacterPrompts) (self : GeminiService),
    (user_messages (get_conversation_summary cp self) +
     assistant_messages (get_conversation_summary cp self))%nat =
      length (get_context_messages self) /\
    (user_messages (get_conversation_summary cp self) +
     assistant_messages (get_conversation_summary cp self) <=
     total_messages (get_conversation_summary cp self))%nat /\
    (last_message_time (get_conversation_summary cp self) = None <->
     total_messages (get_conversation_summary cp self) = 0%nat).
Proof.
  intros cp self. unfold get_conversation_summary. simpl.
  rewrite filter_role_length.
  split; [| split].
  - now rewrite context_messages_count.
  - apply length_filter.
  - destruct (conversation_history self) as [| m h] using rev_ind.
    + simpl. tauto.
    + rewrite last_snoc, length_app. simpl. split; [discriminate | lia].
Qed.

(** After [add_to_history] on a service whose bound is not negative, the
    summary reports the clock reading of that call as the last message
    time. *)
Theorem summary_reports_latest_entry :
  forall (cp : CharacterPrompts) (self : GeminiService)
         (r c now : string),
    0 <= max_history_length self ->
    last_message_time
      (get_conversation_summary cp (add_to_history self r c now)) =
      Some now.
Proof.
  intros cp self r c now Hmax.
  unfold get_conversation_summary, add_to_history. simpl.
  set (e := {| role := r; content := c; timestamp := now |}).
  rewrite length_app. simpl.
  destruct (Z.ltb_spec (max_history_length self)
              (Z.of_nat (length (conversation_history self) + 1)))
    as [Hlt | Hge].
  - unfold Py.slice_from. rewrite length_app. simpl.
    match goal with
    | |- context [drop ?k _] =>
        assert (k <= length (conversation_history self))%nat as Hk
    end.
    { destruct (Z.ltb_spec (- max_history_length self) 0); lia. }
    rewrite drop_app_le by exact Hk. now rewrite last_snoc.
  - now rewrite last_snoc.
Qed.

Lemma summary_reports_latest_entry_witness :
  Gemini.last_message_time
    (Gemini.get_conversation_summary Sample.prompts
       (Gemini.add_to_history Gemini.init "user" "hi" "12:00")) =
    Some "12:00".
Proof.
  apply (summary_reports_latest_entry Sample.prompts Gemini.init
           "user" "hi" "12:00").
  vm_compute. discriminate.
Defined.

End GeminiContext.

Section GeminiSend.

Import Gemini.

Lemma last_n_succ_snoc {A} (n : nat) (l : list A) (x : A) :
  Py.last_n (S n) (l ++ [x]) = Py.last_n n l ++ [x].
Proof.
  unfold Py.last_n. rewrite length_app. simpl.
  rewrite drop_app_le by lia. f_equal. f_equal. lia.
Qed.

Lemma slice_to_drops_last {A} (l : list A) (x : A) :
  Py.slice_to (-1) (l ++ [x]) = l.
Proof.
  unfold Py.slice_to. rewrite length_app. simpl.
  replace (Z.to_nat (Z.max 0 (-1 + Z.of_nat (length l + 1))))
    with (length l) by lia.
  apply take_app_length.
Qed.

(** The service on which [send_message] records the user message: the
    character is the requested one when there is one. *)
Lemma send_message_character_update self (cid : option Z) :
  match cid with
  | Some c =>
      if negb (c =? current_character_id self)
      then {| conversation_history := conversation_history self;
              max_history_length := max_history_length self;
              current_character_id := c |}
      else self
  | None => self
  end =
  {| conversation_history := conversation_history self;
     max_history_length := max_history_length self;
     current_character_id := default (current_character_id self) cid |}.
Proof.
  destruct self as [h m cur]. destruct cid as [c |]; simpl; [| reflexivity].
  destruct (Z.eqb_spec c cur) as [-> | _]; reflexivity.
Qed.

Lemma add_to_history_bound self r c t :
  max_history_length self = 50 ->
  (length (conversation_history (add_to_history self r c t)) <= 50)%nat.
Proof.
  intros Hmax. rewrite add_to_history_last_n by exact Hmax.
  rewrite last_n_length. lia.
Qed.

(** [send_message] keeps the bound and stays within it. *)
Lemma send_message_keeps_bound cp reply now1 now2 self message ctx cid :
  max_history_length self = 50 ->
  max_history_length
    (send_message cp reply now1 now2 self message ctx cid).1.1 = 50 /\
  (length (conversation_history
             (send_message cp reply now1 now2 self message ctx cid).1.1)
   <= 50)%nat.
Proof.
  intros Hmax. unfold send_message. cbv zeta.
  rewrite (send_message_character_update self cid).
  match goal with |- context [reply ?c] => destruct (reply c) end;
    cbn [fst snd]; (split; [exact Hmax |]);
    repeat apply add_to_history_bound; exact Hmax.
Qed.

(** With context enabled and the bound at 50, [send_message] calls
    [generate_content] when the history is empty, and otherwise starts a
    chat whose history is the context of the 49 most recent earlier
    entries, the new user message not included.  The message sent is
    formatted for the requested character, or for the current one when
    none is requested. *)
Theorem send_message_model_call :
  forall (cp : CharacterPrompts) (reply : ModelCall -> string + string)
         (now1 now2 : string) (self : GeminiService) (message : string)
         (cid : option Z),
    max_history_length self = 50 ->
    (send_message cp reply now1 now2 self message true cid).1.2 =
      match conversation_history self with
      | [] =>
          GenerateContent
            (format_message_with_character cp message
               (default (current_character_id self) cid))
      | _ :: _ =>
          StartChatSend
            (get_context_messages
               (with_history self
                  (Py.last_n 49 (conversation_history self))))
            (format_message_with_character cp message
               (default (current_character_id self) cid))
      end.
Proof.
  intros cp reply now1 now2 self message cid Hmax.
  unfold send_message. cbv zeta.
  rewrite (send_message_character_update self cid).
  set (self1 := {| conversation_history := conversation_history self;
                   max_history_length := max_history_length self;
                   current_character_id :=
                     default (current_character_id self) cid |}).
  assert (match cid with
          | Some c => c
          | None => current_character_id self
          end = default (current_character_id self) cid) as ->
    by now destruct cid.
  set (fm := format_message_with_character cp message _).
  set (self2 := add_to_history self1 "user" message now1).
  assert (conversation_history self2 =
          Py.last_n 49 (conversation_history self) ++
          [entry_of ("user", message, now1)]) as Hh.
  { unfold self2. rewrite add_to_history_last_n by exact Hmax.
    simpl. apply (last_n_succ_snoc 49). }
  assert (get_context_messages self2 =
          get_context_messages
            (with_history self (Py.last_n 49 (conversation_history self))) ++
          [{| ctx_role := "user"; ctx_parts := [message] |}]) as Hctx.
  { rewrite <- (get_context_messages_with_history self2), Hh.
    rewrite (get_context_messages_app self2). reflexivity. }
  assert (forall r, (match r with
                     | inr response_text =>
                         (add_to_history self2 "assistant" response_text now2,
                          (if true &&
                              (1 <? Z.of_nat (length (conversation_history self2)))
                           then StartChatSend
                                  (Py.slice_to (-1) (get_context_messages self2))
                                  fm
                           else GenerateContent fm), inr response_text)
                     | inl e =>
                         (self2,
                          (if true &&
                              (1 <? Z.of_nat (length (conversation_history self2)))
                           then StartChatSend
                                  (Py.slice_to (-1) (get_context_messages self2))
                                  fm
                           else GenerateContent fm),
                          inl ("Gemini API error: " +:+ e))
                     end : GeminiService * ModelCall * (string + string)).1.2 =
                    (if true &&
                        (1 <? Z.of_nat (length (conversation_history self2)))
                     then StartChatSend
                            (Py.slice_to (-1) (get_context_messages self2)) fm
                     else GenerateContent fm)) as Hcall
    by (intros [e | t]; reflexivity).
  rewrite Hcall. rewrite Hctx, slice_to_drops_last, Hh, length_app.
  simpl. unfold Py.last_n.
  destruct (conversation_history self) as [| e h]; [reflexivity |].
  rewrite length_drop. simpl length.
  destruct (Z.ltb_spec 1 (Z.of_nat (S (length h) - (S (length h) - 49) + 1)));
    [reflexivity | lia].
Qed.

Lemma send_message_model_call_witness :
  (Gemini.send_message Sample.prompts
     (HttpServer.model_reply (Sample.env_at 1000%float)) "t1" "t2"
     Gemini.init "hi" true (Some 2)).1.2 =
    Gemini.GenerateContent "[2] hi".
Proof.
  apply (send_message_model_call Sample.prompts
           (HttpServer.model_reply (Sample.env_at 1000%float)) "t1" "t2"
           Gemini.init "hi" (Some 2)).
  reflexivity.
Defined.

(** What [send_message] leaves behind, with the bound at 50.  The current
    character becomes the requested one, whether or not it is an available
    character.  When the model replies, the reply is returned and the
    history is the last 50 entries of the earlier history followed by the
    user message and the reply; when the model raises, the exception
    carries ["Gemini API error: "] followed by its text, and the user
    message stays in the history without an answer. *)
Theorem send_message_outcome :
  forall (cp : CharacterPrompts) (reply : ModelCall -> string + string)
         (now1 now2 : string) (self : GeminiService) (message : string)
         (ctx : bool) (cid : option Z),
    max_history_length self = 50 ->
    current_character_id
      (send_message cp reply now1 now2 self message ctx cid).1.1 =
      default (current_character_id self) cid /\
    max_history_length
      (send_message cp reply now1 now2 self message ctx cid).1.1 = 50 /\
    match reply (send_message cp reply now1 now2 self message ctx cid).1.2 with
    | inr text =>
        (send_message cp reply now1 now2 self message ctx cid).2 = inr text /\
        conversation_history
          (send_message cp reply now1 now2 self message ctx cid).1.1 =
          Py.last_n 50
            (conversation_history self ++
             [entry_of ("user", message, now1);
              entry_of ("assistant", text, now2)])
    | inl e =>
        (send_message cp reply now1 now2 self message ctx cid).2 =
          inl ("Gemini API error: " +:+ e) /\
        conversation_history
          (send_message cp reply now1 now2 self message ctx cid).1.1 =
          Py.last_n 50
            (conversation_history self ++ [entry_of ("user", message, now1)])
    end.
Proof.
  intros cp reply now1 now2 self message ctx cid Hmax.
  unfold send_message. cbv zeta.
  rewrite (send_message_character_update self cid).
  set (self1 := {| conversation_history := conversation_history self;
                   max_history_length := max_history_length self;
                   current_character_id :=
                     default (current_character_id self) cid |}).
  set (self2 := add_to_history self1 "user" message now1).
  set (call := if ctx && _ then _ else _).
  assert (conversation_history self2 =
          Py.last_n 50 (conversation_history self ++
                        [entry_of ("user", message, now1)])) as Hh
    by (unfold self2; now rewrite add_to_history_last_n).
  destruct (reply call) as [e | text] eqn:Hr; cbn [fst snd]; rewrite Hr.
  - repeat split; assumption.
  - rewrite add_to_history_last_n by exact Hmax.
    rewrite Hh, last_n_snoc, <- app_assoc.
    repeat split; assumption.
Qed.

Lemma send_message_outcome_witness :
  Gemini.current_character_id
    (Gemini.send_message Sample.prompts (fun _ => inl "quota") "t1" "t2"
       Gemini.init "hi" true (Some 9)).1.1 = 9 /\
  (Gemini.send_message Sample.prompts (fun _ => inl "quota") "t1" "t2"
     Gemini.init "hi" true (Some 9)).2 = inl "Gemini API error: quota" /\
  Gemini.conversation_history
    (Gemini.send_message Sample.prompts (fun _ => inl "quota") "t1" "t2"
       Gemini.init "hi" true (Some 9)).1.1 =
    [Gemini.entry_of ("user", "hi", "t1")].
Proof.
  pose proof (send_message_outcome Sample.prompts (fun _ => inl "quota")
                "t1" "t2" Gemini.init "hi" true (Some 9) eq_refl)
    as (Hc & _ & Hrest).
  split; [exact Hc |]. exact Hrest.
Defined.

End GeminiSend.

(** ** The table of recent messages ([http_server.py]) *)

Section RecentTable.

Import HttpServer.

Lemma recent_get_None k (d : list (string * float)) :
  recent_get k d = None <-> k ∉ d.*1.
Proof.
  induction d as [| [k' v] d IH]; simpl.
  - split; [intros _ H; inversion H | reflexivity].
  - rewrite not_elem_of_cons.
    destruct (String.eqb_spec k k') as [-> | Hne].
    + split; [discriminate | intros [H _]; now destruct H].
    + rewrite IH. tauto.
Qed.

Lemma recent_get_set_eq k v (d : list (string * float)) :
  recent_get k (recent_set k v d) = Some v.
Proof.
  induction d as [| [k' v'] d IH]; simpl.
  - now rewrite String.eqb_refl.
  - destruct (String.eqb_spec k k') as [-> | Hne]; simpl.
    + now rewrite String.eqb_refl.
    + destruct (String.eqb_spec k k'); [contradiction | exact IH].
Qed.

Lemma recent_get_set_ne k k' v (d : list (string * float)) :
  k' <> k -> recent_get k' (recent_set k v d) = recent_get k' d.
Proof.
  intros Hne. induction d as [| [k0 v0] d IH]; simpl.
  - destruct (String.eqb_spec k' k); [contradiction | reflexivity].
  - destruct (String.eqb_spec k k0) as [-> | Hk]; simpl.
    + destruct (String.eqb_spec k' k0); [contradiction | reflexivity].
    + now rewrite IH.
Qed.

(** Assigning keeps the keys in place: a known key stays where it is, a
    new key goes to the end. *)
Lemma recent_set_keys k v (d : list (string * float)) :
  (recent_set k v d).*1 = if decide (k ∈ d.*1) then d.*1 else d.*1 ++ [k].
Proof.
  induction d as [| [k' v'] d IH].
  - destruct (decide (k ∈ ([] : list (string * float)).*1)) as [H | _];
      [inversion H | reflexivity].
  - cbn [recent_set]. destruct (String.eqb_spec k k') as [-> | Hne].
    + rewrite !fmap_cons. cbn [fst].
      destruct (decide (k' ∈ k' :: d.*1)) as [_ | H]; [reflexivity |].
      destruct H. left.
    + rewrite !fmap_cons, IH. cbn [fst].
      destruct (decide (k ∈ d.*1)) as [Hin | Hout];
        destruct (decide (k ∈ k' :: d.*1)) as [Hin' | Hout'];
        try reflexivity.
      * destruct Hout'. now right.
      * apply elem_of_cons in Hin' as [? | ?]; contradiction.
Qed.

Lemma recent_set_NoDup k v (d : list (string * float)) :
  NoDup d.*1 -> NoDup (recent_set k v d).*1.
Proof.
  intros Hnd. rewrite recent_set_keys.
  destruct (decide (k ∈ d.*1)); [assumption |].
  apply NoDup_app. repeat split; [assumption | | apply NoDup_singleton].
  intros x Hx Hk. apply list_elem_of_singleton in Hk. now subst.
Qed.

Lemma recent_set_length k v (d : list (string * float)) :
  length (recent_set k v d) =
    if decide (k ∈ d.*1) then length d else S (length d).
Proof.
  rewrite <- (length_fmap fst (recent_set k v d)), recent_set_keys.
  destruct (decide (k ∈ d.*1)); rewrite ?length_app, length_fmap;
    simpl; lia.
Qed.

Lemma insert_by_time_perm p (l : list (string * float)) :
  insert_by_time p l ≡ₚ p :: l.
Proof.
  induction l as [| q l IH]; simpl; [reflexivity |].
  destruct (PrimFloat.ltb p.2 q.2); [reflexivity |].
  rewrite IH. apply Permutation_swap.
Qed.

(** The sort returns the keys of the table, each once when they are
    distinct. *)
Lemma sorted_by_time_perm (d : list (string * float)) :
  sorted_by_time d ≡ₚ d.*1.
Proof.
  unfold sorted_by_time.
  assert (forall acc,
            foldl (fun acc p => insert_by_time p acc) acc d ≡ₚ acc ++ d)
    as Hgen.
  { induction d as [| p d IH]; intros acc; simpl.
    - now rewrite app_nil_r.
    - rewrite IH, insert_by_time_perm. simpl. apply Permutation_middle. }
  rewrite (Hgen []). reflexivity.
Qed.

Lemma recent_del_keys k x (d : list (string * float)) :
  x ∈ (recent_del k d).*1 <-> x ∈ d.*1 /\ x <> k.
Proof.
  unfold recent_del. rewrite !list_elem_of_fmap. split.
  - intros ([k' v] & -> & Hin). apply list_elem_of_filter in Hin as [Hp Hin].
    simpl in *. split.
    + exists (k', v). auto.
    + intros ->. rewrite String.eqb_refl in Hp. discriminate.
  - intros [([k' v] & -> & Hin) Hne]. exists (k', v). split; [reflexivity |].
    apply list_elem_of_filter. split; [| assumption]. simpl in *.
    destruct (String.eqb_spec k k'); [congruence | reflexivity].
Qed.

Lemma recent_del_NoDup k (d : list (string * float)) :
  NoDup d.*1 -> NoDup (recent_del k d).*1.
Proof.
  unfold recent_del. intros Hnd.
  apply (sublist_NoDup _ d.*1); [exact Hnd |].
  apply fmap_sublist, sublist_filter.
Qed.

Lemma recent_del_length k (d : list (string * float)) :
  NoDup d.*1 -> k ∈ d.*1 -> S (length (recent_del k d)) = length d.
Proof.
  unfold recent_del.
  induction d as [| [k' v] d IH]; simpl; intros Hnd Hin.
  - inversion Hin.
  - apply NoDup_cons in Hnd as [Hout Hnd]. rewrite filter_cons. simpl.
    destruct (String.eqb_spec k k') as [-> | Hne].
    + rewrite decide_False by discriminate.
      f_equal. clear IH Hin.
      induction d as [| [k0 v0] d IH]; [reflexivity |].
      simpl in *. rewrite not_elem_of_cons in Hout. destruct Hout as [Hk Hout].
      apply NoDup_cons in Hnd as [_ Hnd]. rewrite filter_cons. simpl.
      destruct (String.eqb_spec k' k0); [congruence |].
      rewrite decide_True by reflexivity. simpl. f_equal. auto.
    + rewrite decide_True by reflexivity. simpl. f_equal.
      apply IH; [assumption |].
      apply elem_of_cons in Hin as [? | ?]; [congruence | assumption].
Qed.

(** Deleting distinct keys that are all present removes that many
    entries. *)
Lemma recent_del_all_length (ks : list string) :
  forall (d : list (string * float)),
    NoDup ks -> (forall k, k ∈ ks -> k ∈ d.*1) -> NoDup d.*1 ->
    (length (foldl (fun d k => recent_del k d) d ks) + length ks)%nat =
      length d /\
    NoDup (foldl (fun d k => recent_del k d) d ks).*1.
Proof.
  induction ks as [| k ks IH]; intros d Hks Hin Hnd; simpl.
  - split; [lia | assumption].
  - apply NoDup_cons in Hks as [Hk Hks].
    destruct (IH (recent_del k d) Hks) as [Hlen Hnd'].
    + intros k' Hk'. apply recent_del_keys. split.
      * apply Hin. now right.
      * intros ->. contradiction.
    + now apply recent_del_NoDup.
    + split; [| assumption].
      pose proof (recent_del_length k d Hnd (Hin k ltac:(left))). lia.
Qed.

(** The table after a check, by size: unchanged in size when the key was
    known, one entry more for a new key with room left, and 51 entries
    when the new key is the 101st. *)
Lemma table_after_check client ty data current
    (recent : list (string * float)) :
  NoDup recent.*1 ->
  (length recent <= 100)%nat ->
  NoDup (is_duplicate_message client ty data current recent).2.*1 /\
  length (is_duplicate_message client ty data current recent).2 =
    if decide (message_key client ty data ∈ recent.*1) then length recent
    else if decide (length recent = 100%nat) then 51%nat
    else S (length recent).
Proof.
  intros Hnd Hlen.
  unfold is_duplicate_message. cbv zeta.
  set (key := message_key client ty data).
  pose proof (recent_set_NoDup key current recent Hnd) as Hnd1.
  pose proof (recent_set_length key current recent) as Hlen1.
  destruct (recent_get key recent) as [t |] eqn:Hget.
  - assert (key ∈ recent.*1) as Hin.
    { destruct (decide (key ∈ recent.*1)) as [? | Hout]; [assumption |].
      apply recent_get_None in Hout. congruence. }
    rewrite decide_True in Hlen1 |- * by exact Hin.
    destruct (PrimFloat.ltb (PrimFloat.sub current t) 1); cbn [snd];
      [split; [assumption | reflexivity] |].
    destruct (Nat.ltb_spec 100 (length (recent_set key current recent)));
      [lia |].
    split; assumption.
  - apply recent_get_None in Hget.
    rewrite decide_False in Hlen1 |- * by exact Hget. cbn [snd].
    destruct (Nat.ltb_spec 100 (length (recent_set key current recent)))
      as [Hbig | Hsmall].
    + pose proof (sorted_by_time_perm (recent_set key current recent))
        as Hperm.
      assert (length (sorted_by_time (recent_set key current recent)) =
              length (recent_set key current recent)) as Hsl
        by now rewrite Hperm, length_fmap.
      destruct (recent_del_all_length
                  (take 50 (sorted_by_time (recent_set key current recent)))
                  (recent_set key current recent)) as [Hl Hn].
      * apply (sublist_NoDup _ (sorted_by_time
                                  (recent_set key current recent)));
          [now rewrite Hperm | apply sublist_take].
      * intros k Hk. rewrite <- Hperm.
        apply (elem_of_sublist _ _ _ Hk), sublist_take.
      * assumption.
      * rewrite length_take_le in Hl by lia.
        split; [assumption |].
        rewrite decide_True by lia. lia.
    + split; [assumption |].
      rewrite decide_False by lia. exact Hlen1.
Qed.

(** [is_duplicate_message] keeps the table in shape: when its keys are
    distinct and it holds at most 100 entries, the same is true
    afterwards.  A clean-up, which happens when the 101st key arrives,
    leaves 51 entries. *)
Theorem recent_messages_stay_bounded :
  forall (client ty : string) (data : MessageData) (current : float)
         (recent : list (string * float)),
    NoDup recent.*1 ->
    (length recent <= 100)%nat ->
    NoDup (is_duplicate_message client ty data current recent).2.*1 /\
    (length (is_duplicate_message client ty data current recent).2 <= 100)%nat /\
    (length recent = 100%nat ->
     recent_get (message_key client ty data) recent = None ->
     length (is_duplicate_message client ty data current recent).2 = 51%nat).
Proof.
  intros client ty data current recent Hnd Hlen.
  destruct (table_after_check client ty data current recent Hnd Hlen)
    as [Hn Hl].
  split; [exact Hn |]. rewrite Hl. split.
  - destruct (decide _); [assumption |]. destruct (decide _); lia.
  - intros H100 Hnone. apply recent_get_None in Hnone.
    rewrite decide_False by exact Hnone. now rewrite decide_True.
Qed.

(** A call that is not classified as a duplicate, made on a table with
    room left, stores the current time under the key of the message and
    leaves every other key as it was; the same message at the same clock
    reading is then found under that time. *)
Theorem fresh_message_is_recorded :
  forall (client ty : string) (data : MessageData) (current : float)
         (recent : list (string * float)),
    (length recent < 100)%nat ->
    (is_duplicate_message client ty data current recent).1 = false ->
    recent_get (message_key client ty data)
      (is_duplicate_message client ty data current recent).2 = Some current /\
    (forall k, k <> message_key client ty data ->
       recent_get k (is_duplicate_message client ty data current recent).2 =
         recent_get k recent).
Proof.
  intros client ty data current recent Hlen.
  unfold is_duplicate_message. cbv zeta.
  set (key := message_key client ty data).
  destruct (match recent_get key recent with
            | Some t => PrimFloat.ltb (PrimFloat.sub current t) 1
            | None => false
            end); simpl; [discriminate |].
  intros _.
  pose proof (recent_set_length key current recent) as Hl.
  destruct (Nat.ltb_spec 100 (length (recent_set key current recent)))
    as [Hbig | _].
  { destruct (decide (key ∈ recent.*1)); lia. }
  split; [apply recent_get_set_eq |].
  intros k Hk. now apply recent_get_set_ne.
Qed.

End RecentTable.

Lemma recent_messages_stay_bounded_witness :
  NoDup (HttpServer.is_duplicate_message "c" "text" (Sample.burst_message 1)
           1000%float []).2.*1 /\
  (length (HttpServer.is_duplicate_message "c" "text"
             (Sample.burst_message 1) 1000%float []).2 <= 100)%nat.
Proof.
  pose proof (recent_messages_stay_bounded "c" "text" (Sample.burst_message 1)
                1000%float [] (NoDup_nil_2 : NoDup ([] : list (string * float)).*1)
                ltac:(simpl; lia)) as (H1 & H2 & _).
  split; assumption.
Defined.

Lemma fresh_message_is_recorded_witness :
  HttpServer.recent_get
    (HttpServer.message_key "c" "text" (Sample.burst_message 1))
    (HttpServer.is_duplicate_message "c" "text" (Sample.burst_message 1)
       1000%float []).2 = Some 1000%float.
Proof.
  apply (fresh_message_is_recorded "c" "text" (Sample.burst_message 1)
           1000%float []).
  - simpl. lia.
  - reflexivity.
Defined.

(** After the burst of 101 distinct messages the table holds 51 of them. *)
Example burst_leaves_51 : length Sample.recent_after_burst = 51%nat.
Proof. vm_compute. reflexivity. Qed.

(** ** Sessions and the effects of [chat] ([http_server.py]) *)

Section ChatEffects.

Import HttpServer.

Lemma get_or_create_session_lookup created connection_id
    (sessions : gmap string Session) :
  get_or_create_session created connection_id sessions !! connection_id =
    Some (default {| messages := []; session_character_id := 1;
                     created_at := created |}
                  (sessions !! connection_id)) /\
  (forall k, k <> connection_id ->
     get_or_create_session created connection_id sessions !! k =
       sessions !! k).
Proof.
  unfold get_or_create_session.
  destruct (sessions !! connection_id) as [s |] eqn:Hs.
  - now rewrite Hs.
  - rewrite lookup_insert_eq. split; [reflexivity |].
    intros k Hk. now rewrite lookup_insert_ne.
Qed.

(** [get_or_create_session] returns the stored session when there is one
    and never overwrites it; otherwise it files a session with no
    messages and character 1.  No other session is touched, and a second
    call changes nothing. *)
Theorem get_or_create_session_keeps_existing :
  forall (created created' : string) (connection_id : string)
         (sessions : gmap string Session),
    get_or_create_session created connection_id sessions !! connection_id =
      Some (default {| messages := []; session_character_id := 1;
                       created_at := created |}
                    (sessions !! connection_id)) /\
    (forall k, k <> connection_id ->
       get_or_create_session created connection_id sessions !! k =
         sessions !! k) /\
    get_or_create_session created' connection_id
      (get_or_create_session created connection_id sessions) =
      get_or_create_session created connection_id sessions.
Proof.
  intros created created' cid sessions.
  destruct (get_or_create_session_lookup created cid sessions) as [Hat Ho].
  split; [exact Hat |]. split; [exact Ho |].
  unfold get_or_create_session at 1. now rewrite Hat.
Qed.

(** The sessions once [chat] has stored the user message. *)
Lemma session_after_user_message env app request :
  let sid := session_id_of env request in
  let sessions2 :=
    match req_character_id request with
    | Some c =>
        if negb (c =? 0)
        then alter (set_session_character c) sid
               (get_or_create_session (now env 0%nat) sid (chat_sessions app))
        else get_or_create_session (now env 0%nat) sid (chat_sessions app)
    | None => get_or_create_session (now env 0%nat) sid (chat_sessions app)
    end in
  forall m,
    messages <$> (alter (append_message m) sid sessions2 !! sid) =
      Some (default [] (messages <$> chat_sessions app !! sid) ++ [m]) /\
    (forall k, k <> sid ->
       alter (append_message m) sid sessions2 !! k = chat_sessions app !! k).
Proof.
  intros sid sessions2 m.
  destruct (get_or_create_session_lookup (now env 0%nat) sid
              (chat_sessions app)) as (Hat & Hother).
  assert (messages <$> sessions2 !! sid =
          Some (default [] (messages <$> chat_sessions app !! sid)) /\
          (forall k, k <> sid -> sessions2 !! k = chat_sessions app !! k))
    as [Hm Ho].
  { unfold sessions2.
    destruct (req_character_id request) as [c |];
      [destruct (negb (c =? 0)) |].
    - split.
      + rewrite lookup_alter_eq, Hat.
        now destruct (chat_sessions app !! sid).
      + intros k Hk. rewrite lookup_alter_ne by congruence. auto.
    - split; [| exact Hother]. rewrite Hat.
      now destruct (chat_sessions app !! sid).
    - split; [| exact Hother]. rewrite Hat.
      now destruct (chat_sessions app !! sid). }
  split.
  - rewrite lookup_alter_eq.
    destruct (sessions2 !! sid) as [s |]; simpl in *; [| discriminate].
    injection Hm as <-. reflexivity.
  - intros k Hk. rewrite lookup_alter_ne by congruence. auto.
Qed.

(** A request whose type is neither ["text"] nor ["gemini_chat"], and that
    is not a duplicate, is answered with the text of the [HTTPException]
    (status 400, detail naming the type) as error.  The model is not
    called and the Gemini service is untouched, but the user message has
    already been appended to the session. *)
Theorem chat_unsupported_type :
  forall (cp : CharacterPrompts) (env : Env) (app : App)
         (request : ChatRequest),
    classified_duplicate env app request = false ->
    req_type request <> "text" ->
    req_type request <> "gemini_chat" ->
    (chat cp env app request).1 =
      failure_response
        (str_http_exception env 400
           ("Unsupported message type: " +:+ req_type request)) /\
    gemini_service (chat cp env app request).2 = gemini_service app /\
    model_calls (chat cp env app request).2 = model_calls app /\
    messages <$>
      (chat_sessions (chat cp env app request).2 !! session_id_of env request) =
      Some (default []
              (messages <$> chat_sessions app !! session_id_of env request) ++
            [{| msg_text := req_text request; is_user := true;
                msg_timestamp := now env 1%nat; is_error := false |}]).
Proof.
  intros cp env app request Hdup Ht Hg.
  unfold classified_duplicate in Hdup. unfold chat.
  destruct (is_duplicate_message _ _ _ _ _) as [dup recent].
  simpl in Hdup. subst dup. cbv zeta.
  assert (String.eqb (req_type request) "text" ||
          String.eqb (req_type request) "gemini_chat" = false) as ->.
  { apply orb_false_iff. split; now apply String.eqb_neq. }
  cbn [fst snd chat_sessions gemini_service model_calls].
  repeat split.
  apply (session_after_user_message env app request).
Qed.

Lemma chat_unsupported_type_witness :
  (HttpServer.chat Sample.prompts (Sample.env_at 1000%float)
     HttpServer.initial_app
     {| HttpServer.req_type := "image"; HttpServer.req_text := "hi";
        HttpServer.req_character_id := None;
        HttpServer.req_streaming := None;
        HttpServer.req_connection_id := Some "phone-1" |}).1 =
    HttpServer.failure_response "400: Unsupported message type: image" /\
  HttpServer.model_calls
    (HttpServer.chat Sample.prompts (Sample.env_at 1000%float)
       HttpServer.initial_app
       {| HttpServer.req_type := "image"; HttpServer.req_text := "hi";
          HttpServer.req_character_id := None;
          HttpServer.req_streaming := None;
          HttpServer.req_connection_id := Some "phone-1" |}).2 = [].
Proof.
  pose proof (chat_unsupported_type Sample.prompts (Sample.env_at 1000%float)
                HttpServer.initial_app
                {| HttpServer.req_type := "image"; HttpServer.req_text := "hi";
                   HttpServer.req_character_id := None;
                   HttpServer.req_streaming := None;
                   HttpServer.req_connection_id := Some "phone-1" |}
                eq_refl ltac:(discriminate) ltac:(discriminate))
    as (H1 & _ & H3 & _).
  split; [exact H1 | exact H3].
Defined.

End ChatEffects.

Section ChatOutcomes.

Import HttpServer.

(** The result of [send_message] is the reply of the model on the call
    made, or its exception wrapped. *)
Lemma send_message_result cp reply now1 now2 self message ctx cid :
  (Gemini.send_message cp reply now1 now2 self message ctx cid).2 =
    match reply (Gemini.send_message cp reply now1 now2 self message ctx cid).1.2
    with
    | inr text => inr text
    | inl e => inl ("Gemini API error: " +:+ e)
    end.
Proof.
  unfold Gemini.send_message. cbv zeta.
  match goal with |- context [reply ?c] => destruct (reply c) eqn:Hr end;
    cbn [fst snd]; now rewrite Hr.
Qed.

Lemma send_message_current cp reply now1 now2 self message ctx cid :
  Gemini.current_character_id
    (Gemini.send_message cp reply now1 now2 self message ctx cid).1.1 =
    default (Gemini.current_character_id self) cid.
Proof.
  unfold Gemini.send_message. cbv zeta.
  rewrite (send_message_character_update self cid).
  match goal with |- context [reply ?c] => destruct (reply c) end;
    reflexivity.
Qed.

(** The service that [chat] hands to [send_message] has the history and
    the bound of the stored one. *)
Lemma chat_character_switch cp (g : Gemini.GeminiService) (cid : option Z) :
  let g1 :=
    match cid with
    | Some c =>
        if negb (c =? 0) && negb (c =? Gemini.get_current_character_id g)
        then (Gemini.set_character cp g c).1
        else g
    | None => g
    end in
  Gemini.conversation_history g1 = Gemini.conversation_history g /\
  Gemini.max_history_length g1 = Gemini.max_history_length g /\
  default (Gemini.current_character_id g1) cid =
    default (Gemini.current_character_id g) cid.
Proof.
  destruct cid as [c |]; simpl; [| auto].
  destruct (negb (c =? 0) && negb (c =? Gemini.get_current_character_id g));
    [| auto].
  unfold Gemini.set_character. destruct (bool_decide _); simpl; auto.
Qed.

(** When the model raises, [chat] answers [success=false] with the wrapped
    error text; the model was called once, and the session keeps the user
    message without an answer. *)
Theorem chat_model_failure :
  forall (cp : CharacterPrompts) (env : Env) (app : App)
         (request : ChatRequest) (e : string),
    classified_duplicate env app request = false ->
    req_type request = "text" \/ req_type request = "gemini_chat" ->
    (forall call, model_reply env call = inl e) ->
    (chat cp env app request).1 =
      failure_response ("Gemini API error: " +:+ e) /\
    length (model_calls (chat cp env app request).2) =
      S (length (model_calls app)) /\
    messages <$>
      (chat_sessions (chat cp env app request).2 !! session_id_of env request) =
      Some (default []
              (messages <$> chat_sessions app !! session_id_of env request) ++
            [{| msg_text := req_text request; is_user := true;
                msg_timestamp := now env 1%nat; is_error := false |}]).
Proof.
  intros cp env app request e Hdup Hty Hreply.
  unfold classified_duplicate in Hdup. unfold chat.
  destruct (is_duplicate_message _ _ _ _ _) as [dup recent].
  simpl in Hdup. subst dup. cbv zeta.
  assert (String.eqb (req_type request) "text" ||
          String.eqb (req_type request) "gemini_chat" = true) as ->.
  { destruct Hty as [-> | ->]; reflexivity. }
  match goal with
  | |- context [Gemini.send_message ?a ?b ?n1 ?n2 ?g ?m ?x ?i] =>
      pose proof (send_message_result a b n1 n2 g m x i) as Hres;
      destruct (Gemini.send_message a b n1 n2 g m x i) as [[g2 call] outcome]
  end.
  cbn [fst snd] in Hres. rewrite Hreply in Hres. subst outcome.
  cbn [fst snd chat_sessions model_calls]. rewrite length_app. simpl length.
  split; [reflexivity |]. split; [lia |].
  apply (session_after_user_message env app request).
Qed.

Lemma chat_model_failure_witness :
  (HttpServer.chat Sample.prompts
     {| HttpServer.time_time := 1000%float;
        HttpServer.now := fun _ => "t"; HttpServer.uuid4 := "u";
        HttpServer.model_reply := fun _ => inl "quota";
        HttpServer.str_http_exception := fun _ d => d |}
     HttpServer.initial_app Sample.request_unknown).1 =
    HttpServer.failure_response "Gemini API error: quota".
Proof.
  apply (chat_model_failure Sample.prompts
           {| HttpServer.time_time := 1000%float;
              HttpServer.now := fun _ => "t"; HttpServer.uuid4 := "u";
              HttpServer.model_reply := fun _ => inl "quota";
              HttpServer.str_http_exception := fun _ d => d |}
           HttpServer.initial_app Sample.request_unknown "quota").
  - reflexivity.
  - left. reflexivity.
  - reflexivity.
Defined.

(** When the model replies, [chat] appends the user message and then the
    answer to the session of the request, in that order, the answer
    carrying the response text; no other session changes, and the model
    was called once.  [GET /api/history] for the connection id of the
    request then returns those session messages. *)
Theorem chat_appends_exchange :
  forall (cp : CharacterPrompts) (env : Env) (app : App)
         (request : ChatRequest),
    classified_duplicate env app request = false ->
    req_type request = "text" \/ req_type request = "gemini_chat" ->
    (forall call, exists text, model_reply env call = inr text) ->
    success (chat cp env app request).1 = true /\
    messages <$>
      (chat_sessions (chat cp env app request).2 !! session_id_of env request) =
      Some (default []
              (messages <$> chat_sessions app !! session_id_of env request) ++
            [{| msg_text := req_text request; is_user := true;
                msg_timestamp := now env 1%nat; is_error := false |};
             {| msg_text := response (chat cp env app request).1;
                is_user := false;
                msg_timestamp := now env 4%nat; is_error := false |}]) /\
    (forall k, k <> session_id_of env request ->
       chat_sessions (chat cp env app request).2 !! k =
         chat_sessions app !! k) /\
    length (model_calls (chat cp env app request).2) =
      S (length (model_calls app)) /\
    (forall c,
       req_connection_id request = Some c -> c <> "" ->
       hist_messages (get_history (chat cp env app request).2 (Some c)) =
         SessionMessages
           (default [] (messages <$> chat_sessions app !! c) ++
            [{| msg_text := req_text request; is_user := true;
                msg_timestamp := now env 1%nat; is_error := false |};
             {| msg_text := response (chat cp env app request).1;
                is_user := false;
                msg_timestamp := now env 4%nat; is_error := false |}])).
Proof.
  intros cp env app request Hdup Hty Hreply.
  match goal with
  | |- ?A /\ ?B /\ ?C /\ ?D /\ ?E =>
      assert (A /\ B /\ C /\ D) as (HA & HB & HC & HD);
        [| repeat split; try assumption]
  end.
  2: { intros c Hc Hne.
       assert (session_id_of env request = c) as Hsid.
       { unfold session_id_of. rewrite Hc. simpl.
         destruct c; [contradiction | reflexivity]. }
       rewrite Hsid in HB. unfold get_history.
       assert (Py.opt_str_truthy (Some c) = true) as ->
         by (destruct c; [contradiction | reflexivity]).
       simpl default.
       destruct (chat_sessions (chat cp env app request).2 !! c) as [s |];
         simpl in HB; [| discriminate].
       injection HB as ->. reflexivity. }
  unfold classified_duplicate in Hdup. unfold chat.
  destruct (is_duplicate_message _ _ _ _ _) as [dup recent].
  simpl in Hdup. subst dup. cbv zeta.
  assert (String.eqb (req_type request) "text" ||
          String.eqb (req_type request) "gemini_chat" = true) as ->.
  { destruct Hty as [-> | ->]; reflexivity. }
  match goal with
  | |- context [Gemini.send_message ?a ?b ?n1 ?n2 ?g ?m ?x ?i] =>
      destruct (send_message_replies a b n1 n2 g m x i Hreply) as [t Ht];
      destruct (Gemini.send_message a b n1 n2 g m x i) as [[g2 call] outcome]
  end.
  cbn [snd] in Ht. subst outcome.
  cbn [fst snd chat_sessions model_calls response success].
  rewrite length_app. simpl length.
  destruct (session_after_user_message env app request
              {| msg_text := req_text request; is_user := true;
                 msg_timestamp := now env 1%nat; is_error := false |})
    as [Hm Ho].
  split; [reflexivity |]. split; [| split; [| lia]].
  - rewrite lookup_alter_eq.
    fold (session_id_of env request).
    destruct (alter _ (session_id_of env request) _ !! session_id_of env request)
      as [s |]; simpl in *; [| discriminate].
    injection Hm as ->. now rewrite <- app_assoc.
  - intros k Hk.
    rewrite lookup_alter_ne by (unfold session_id_of in Hk; congruence).
    now apply Ho.
Qed.

(** In a request that reaches the model, the Gemini service ends with the
    requested character as its current one, or keeps its current one when
    none is requested, whether or not [set_character] knows the id and
    whatever the model does; when the model replies, that is the
    character id reported in the response. *)
Theorem chat_reports_current_character :
  forall (cp : CharacterPrompts) (env : Env) (app : App)
         (request : ChatRequest),
    classified_duplicate env app request = false ->
    req_type request = "text" \/ req_type request = "gemini_chat" ->
    Gemini.current_character_id (gemini_service (chat cp env app request).2) =
      default (Gemini.current_character_id (gemini_service app))
              (req_character_id request) /\
    ((forall call, exists text, model_reply env call = inr text) ->
     character_id (chat cp env app request).1 =
       Some (Gemini.current_character_id
               (gemini_service (chat cp env app request).2))).
Proof.
  intros cp env app request Hdup Hty.
  unfold classified_duplicate in Hdup. unfold chat.
  destruct (is_duplicate_message _ _ _ _ _) as [dup recent].
  simpl in Hdup. subst dup. cbv zeta.
  assert (String.eqb (req_type request) "text" ||
          String.eqb (req_type request) "gemini_chat" = true) as ->.
  { destruct Hty as [-> | ->]; reflexivity. }
  destruct (chat_character_switch cp (gemini_service app)
              (req_character_id request)) as (_ & _ & Hcur).
  cbv zeta in Hcur.
  match goal with
  | |- context [Gemini.send_message ?a ?b ?n1 ?n2 ?g ?m ?x ?i] =>
      pose proof (send_message_current a b n1 n2 g m x i) as Hc;
      pose proof (send_message_result a b n1 n2 g m x i) as Hres;
      pose proof (send_message_replies a b n1 n2 g m x i) as Hrep;
      destruct (Gemini.send_message a b n1 n2 g m x i) as [[g2 call] outcome]
  end.
  cbn [fst snd] in Hc, Hres, Hrep. rewrite Hcur in Hc.
  split.
  - destruct outcome; cbn [fst snd gemini_service]; exact Hc.
  - intros Hreply. destruct (Hrep Hreply) as [t ->].
    cbn [fst snd gemini_service character_id].
    unfold Gemini.get_current_character_id. rewrite Hc.
    destruct (req_character_id request) as [c |]; [| reflexivity].
    simpl. destruct (Z.eqb_spec c 0) as [E | _]; [| reflexivity].
    simpl. now rewrite E.
Qed.

Lemma chat_reports_current_character_witness :
  Gemini.current_character_id
    (HttpServer.gemini_service
       (HttpServer.chat Sample.prompts (Sample.env_at 1000.5%float)
          Sample.app1 Sample.request_unknown).2) = 3 /\
  HttpServer.character_id
    (HttpServer.chat Sample.prompts (Sample.env_at 1000.5%float)
       Sample.app1 Sample.request_unknown).1 =
    Some (Gemini.current_character_id
            (HttpServer.gemini_service
               (HttpServer.chat Sample.prompts (Sample.env_at 1000.5%float)
                  Sample.app1 Sample.request_unknown).2)).
Proof.
  pose proof (chat_reports_current_character Sample.prompts
                (Sample.env_at 1000.5%float) Sample.app1
                Sample.request_unknown eq_refl (or_introl eq_refl))
    as [H1 H2].
  split; [exact H1 |]. apply H2.
  intros call. destruct call; eexists; reflexivity.
Defined.

End ChatOutcomes.

Lemma chat_appends_exchange_witness :
  HttpServer.success
    (HttpServer.chat Sample.prompts (Sample.env_at 1000%float)
       HttpServer.initial_app Sample.request_named).1 = true /\
  HttpServer.messages <$>
    (HttpServer.chat_sessions Sample.app1 !! "anonymous") =
    Some [ {| HttpServer.msg_text := "hi"; HttpServer.is_user := true;
              HttpServer.msg_timestamp := "2025-01-01T00:00:01";
              HttpServer.is_error := false |};
           {| HttpServer.msg_text := "re: [1] hi";
              HttpServer.is_user := false;
              HttpServer.msg_timestamp := "2025-01-01T00:00:04";
              HttpServer.is_error := false |} ].
Proof.
  pose proof (chat_appends_exchange Sample.prompts (Sample.env_at 1000%float)
                HttpServer.initial_app Sample.request_named eq_refl
                (or_introl eq_refl)) as H.
  destruct H as (H1 & H2 & _).
  { intros call. destruct call; eexists; reflexivity. }
  split; [exact H1 | exact H2].
Defined.

(** ** Bounds kept by the server state *)

Section ServerBounds.

Import HttpServer.

Lemma chat_recent cp env app request :
  recent_messages (chat cp env app request).2 =
    (is_duplicate_message
       (Py.str_or (req_connection_id request) "anonymous")
       (req_type request)
       {| md_type := req_type request; md_text := req_text request;
          md_character_id := req_character_id request |}
       (time_time env) (recent_messages app)).2.
Proof.
  unfold chat.
  destruct (is_duplicate_message _ _ _ _ _) as [dup recent].
  destruct dup; [reflexivity |]. cbv zeta.
  destruct (String.eqb (req_type request) "text" ||
            String.eqb (req_type request) "gemini_chat"); [| reflexivity].
  destruct (Gemini.send_message _ _ _ _ _ _ _ _) as [[g2 call] [e | t]];
    reflexivity.
Qed.

(** The Gemini service after [chat] is the stored one, or the result of
    [send_message] on a service with the same history and bound. *)
Lemma chat_gemini cp env app request :
  gemini_service (chat cp env app request).2 = gemini_service app \/
  exists g1,
    Gemini.conversation_history g1 =
      Gemini.conversation_history (gemini_service app) /\
    Gemini.max_history_length g1 =
      Gemini.max_history_length (gemini_service app) /\
    gemini_service (chat cp env app request).2 =
      (Gemini.send_message cp (model_reply env) (now env 2%nat)
         (now env 3%nat) g1 (req_text request) true
         (req_character_id request)).1.1.
Proof.
  unfold chat.
  destruct (is_duplicate_message _ _ _ _ _) as [dup recent].
  destruct dup; [left; reflexivity |]. cbv zeta.
  destruct (String.eqb (req_type request) "text" ||
            String.eqb (req_type request) "gemini_chat");
    [| left; reflexivity].
  right.
  destruct (chat_character_switch cp (gemini_service app)
              (req_character_id request)) as (Hh & Hm & _).
  cbv zeta in Hh, Hm.
  eexists. split; [exact Hh |]. split; [exact Hm |].
  destruct (Gemini.send_message _ _ _ _ _ _ _ _) as [[g2 call] [e | t]];
    reflexivity.
Qed.

Lemma chat_keeps_bounds cp env app request :
  Gemini.max_history_length (gemini_service app) = 50 ->
  (length (Gemini.conversation_history (gemini_service app)) <= 50)%nat ->
  NoDup (recent_messages app).*1 ->
  (length (recent_messages app) <= 100)%nat ->
  Gemini.max_history_length (gemini_service (chat cp env app request).2) = 50 /\
  (length (Gemini.conversation_history
             (gemini_service (chat cp env app request).2)) <= 50)%nat /\
  NoDup (recent_messages (chat cp env app request).2).*1 /\
  (length (recent_messages (chat cp env app request).2) <= 100)%nat.
Proof.
  intros Hmax Hlen Hnd Hrl.
  rewrite chat_recent.
  destruct (table_after_check
              (Py.str_or (req_connection_id request) "anonymous")
              (req_type request)
              {| md_type := req_type request; md_text := req_text request;
                 md_character_id := req_character_id request |}
              (time_time env) (recent_messages app) Hnd Hrl) as (H1 & H2').
  assert (length (is_duplicate_message
                    (Py.str_or (req_connection_id request) "anonymous")
                    (req_type request)
                    {| md_type := req_type request;
                       md_text := req_text request;
                       md_character_id := req_character_id request |}
                    (time_time env) (recent_messages app)).2 <= 100)%nat
    as H2.
  { rewrite H2'. destruct (decide _); [assumption |].
    destruct (decide _); lia. }
  destruct (chat_gemini cp env app request) as [-> | (g1 & Hh & Hm & ->)];
    [auto |].
  rewrite Hmax in Hm.
  destruct (send_message_keeps_bound cp (model_reply env) (now env 2%nat)
              (now env 3%nat) g1 (req_text request) true
              (req_character_id request) Hm) as (Hm' & Hl').
  repeat split; assumption.
Qed.

(** From server start, whatever chat requests arrive and whatever the
    model and the clock do, the Gemini history never holds more than 50
    entries and the table of recent messages never holds more than 100,
    each key once. *)
Theorem chat_runs_keep_bounds :
  forall (steps : list (CharacterPrompts * Env * ChatRequest)),
    (length (Gemini.conversation_history
               (gemini_service (run_chats initial_app steps))) <= 50)%nat /\
    (length (recent_messages (run_chats initial_app steps)) <= 100)%nat /\
    NoDup (recent_messages (run_chats initial_app steps)).*1.
Proof.
  intros steps.
  assert (Gemini.max_history_length
            (gemini_service (run_chats initial_app steps)) = 50 /\
          (length (Gemini.conversation_history
                     (gemini_service (run_chats initial_app steps))) <= 50)%nat /\
          NoDup (recent_messages (run_chats initial_app steps)).*1 /\
          (length (recent_messages (run_chats initial_app steps)) <= 100)%nat)
    as (_ & H2 & H3 & H4); [| auto].
  induction steps as [| [[cp env] request] steps IH] using rev_ind.
  - simpl. repeat split; [lia | constructor | lia].
  - unfold run_chats in *. rewrite foldl_app. simpl.
    destruct IH as (I1 & I2 & I3 & I4).
    now apply chat_keeps_bounds.
Qed.

End ServerBounds.

(** ** History, character and map endpoints ([http_server.py]) *)

Section Endpoints.

Import HttpServer.

(** [POST /api/history/clear] with the id of a stored session empties the
    messages of that session only: the other sessions, the session's
    character and the Gemini history stay.  With no id, an empty id or an
    id that has no session, it drops every session and the Gemini
    history, so that [GET /api/history] then returns an empty history for
    any id. *)
Theorem clear_history_scope :
  forall (app : App) (connection_id : option string),
    (forall c s,
       connection_id = Some c -> c <> "" ->
       chat_sessions app !! c = Some s ->
       chat_sessions (clear_history app connection_id).2 !! c =
         Some {| messages := [];
                 session_character_id := session_character_id s;
                 created_at := created_at s |} /\
       (forall k, k <> c ->
          chat_sessions (clear_history app connection_id).2 !! k =
            chat_sessions app !! k) /\
       gemini_service (clear_history app connection_id).2 =
         gemini_service app) /\
    ((connection_id = None \/ connection_id = Some "" \/
      exists c, connection_id = Some c /\ chat_sessions app !! c = None) ->
     chat_sessions (clear_history app connection_id).2 = ∅ /\
     Gemini.current_character_id
       (gemini_service (clear_history app connection_id).2) =
       Gemini.current_character_id (gemini_service app) /\
     forall any,
       hist_messages (get_history (clear_history app connection_id).2 any) =
         GeminiHistory []).
Proof.
  intros app connection_id. split.
  - intros c s -> Hne Hs. unfold clear_history.
    assert (Py.opt_str_truthy (Some c) = true) as ->
      by (destruct c; [contradiction | reflexivity]).
    simpl default. rewrite Hs. cbn [snd chat_sessions gemini_service].
    split; [now rewrite lookup_alter_eq, Hs |].
    split; [| reflexivity].
    intros k Hk. now rewrite lookup_alter_ne.
  - intros Hcase. unfold clear_history.
    assert ((if Py.opt_str_truthy connection_id
             then chat_sessions app !! default "" connection_id
             else None) = None) as ->.
    { destruct Hcase as [-> | [-> | (c & -> & Hc)]]; try reflexivity.
      simpl. now destruct (Py.str_truthy c). }
    cbn [snd chat_sessions gemini_service].
    split; [reflexivity |]. split; [reflexivity |].
    intros any. unfold get_history. cbn [chat_sessions gemini_service].
    rewrite lookup_empty.
    now destruct (Py.opt_str_truthy any).
Qed.

Lemma clear_history_scope_witness :
  HttpServer.chat_sessions
    (HttpServer.clear_history Sample.app1 (Some "nobody")).2 = ∅ /\
  Gemini.current_character_id
    (HttpServer.gemini_service
       (HttpServer.clear_history Sample.app1 (Some "nobody")).2) =
    Gemini.current_character_id (HttpServer.gemini_service Sample.app1) /\
  forall any,
    HttpServer.hist_messages
      (HttpServer.get_history
         (HttpServer.clear_history Sample.app1 (Some "nobody")).2 any) =
      HttpServer.GeminiHistory [].
Proof.
  apply (proj2 (clear_history_scope Sample.app1 (Some "nobody"))).
  right. right. exists "nobody". split; [reflexivity |].
  vm_compute. reflexivity.
Defined.

(** [POST /api/character/set] refuses an id outside the available
    characters and changes nothing; for an id inside, the Gemini service
    ends with that id as current character and the response reports that
    id with the name of [get_character_name], history untouched. *)
Theorem set_character_endpoint :
  forall (cp : CharacterPrompts) (app : App) (request : CharacterRequest),
    (get_available_characters cp !! creq_character_id request = None ->
     set_character cp app request =
       (CharacterNotSet
          ("Character " +:+ Py.str_of_int (creq_character_id request) +:+
           " not found"), app)) /\
    (is_Some (get_available_characters cp !! creq_character_id request) ->
     (set_character cp app request).1 =
       CharacterSet (creq_character_id request)
         (get_character_name cp (creq_character_id request))
         ("Character set to: " +:+
          get_character_name cp (creq_character_id request) +:+ " (ID: " +:+
          Py.str_of_int (creq_character_id request) +:+ ")") /\
     Gemini.current_character_id
       (gemini_service (set_character cp app request).2) =
       creq_character_id request /\
     Gemini.conversation_history
       (gemini_service (set_character cp app request).2) =
       Gemini.conversation_history (gemini_service app) /\
     chat_sessions (set_character cp app request).2 = chat_sessions app).
Proof.
  intros cp app request. unfold set_character. cbv zeta. split.
  - intros Hnone. rewrite bool_decide_eq_false_2; [reflexivity |].
    rewrite Hnone. intros [? ?]. discriminate.
  - intros Hsome. rewrite bool_decide_eq_true_2 by assumption.
    unfold Gemini.set_character.
    rewrite bool_decide_eq_true_2 by assumption.
    cbn [fst snd gemini_service chat_sessions].
    unfold Gemini.get_current_character, Gemini.get_current_character_id.
    cbn [Gemini.current_character_id Gemini.conversation_history]. auto.
Qed.

Lemma set_character_endpoint_witness :
  HttpServer.set_character Sample.prompts HttpServer.initial_app
    {| HttpServer.creq_character_id := 7 |} =
    (HttpServer.CharacterNotSet "Character 7 not found",
     HttpServer.initial_app) /\
  Gemini.current_character_id
    (HttpServer.gemini_service
       (HttpServer.set_character Sample.prompts HttpServer.initial_app
          {| HttpServer.creq_character_id := 2 |}).2) = 2.
Proof.
  split.
  - apply (proj1 (set_character_endpoint Sample.prompts HttpServer.initial_app
                    {| HttpServer.creq_character_id := 7 |})).
    vm_compute. reflexivity.
  - apply (proj2 (set_character_endpoint Sample.prompts HttpServer.initial_app
                    {| HttpServer.creq_character_id := 2 |})).
    vm_compute. eexists. reflexivity.
Defined.

(** [GET /api/character/map] loses nothing when it turns the integer keys
    into strings: a string is a key of the result exactly when it is the
    decimal form of an available id, with that character's name. *)
Theorem character_map_keys :
  forall (cp : CharacterPrompts),
    (forall k,
       character_map (get_character_map cp) !! Py.str_of_int k =
         get_available_characters cp !! k) /\
    (forall s v,
       character_map (get_character_map cp) !! s = Some v <->
       exists k, s = Py.str_of_int k /\
                 get_available_characters cp !! k = Some v) /\
    size (character_map (get_character_map cp)) =
      size (get_available_characters cp).
Proof.
  intros cp. unfold get_character_map, Py.str_of_int.
  cbn [character_map]. split; [| split].
  - intros k. apply (lookup_kmap pretty).
  - intros s v. apply (lookup_kmap_Some pretty).
  - rewrite <- !length_map_to_list, (map_to_list_kmap pretty), length_fmap.
    reflexivity.
Qed.

(** [POST /api/tts] fails exactly on an empty text; otherwise it echoes
    the text and the character id and reports the name and the voice that
    the directory gives for that id, without checking that the id is
    available and whatever the request's type says. *)
Theorem text_to_speech_answers :
  forall (cp : CharacterPrompts) (stamp : string) (request : TTSRequest),
    (tts_success (text_to_speech cp stamp request) = true <->
     tts_req_text request <> "") /\
    (tts_req_text request = "" ->
     tts_error (text_to_speech cp stamp request) = Some "text is required" /\
     tts_voice_id (text_to_speech cp stamp request) = "") /\
    (tts_req_text request <> "" ->
     tts_text (text_to_speech cp stamp request) = tts_req_text request /\
     tts_character_id (text_to_speech cp stamp request) =
       tts_req_character_id request /\
     tts_character_name (text_to_speech cp stamp request) =
       get_character_name cp (tts_req_character_id request) /\
     tts_voice_id (text_to_speech cp stamp request) =
       get_character_voice_id cp (tts_req_character_id request) /\
     tts_error (text_to_speech cp stamp request) = None).
Proof.
  intros cp stamp request. unfold text_to_speech.
  destruct (tts_req_text request) as [| a s]; simpl.
  - split; [split; [discriminate | congruence] |].
    split; [auto | congruence].
  - split; [split; [discriminate | reflexivity] |].
    split; [discriminate | auto 6].
Qed.

End Endpoints.

(** ** Status, success flag and data of the lookup endpoints
    ([http_api_server.py]) *)

Section LookupResponses.

Import HttpApi.

Variable int : string -> option Z.

(** Whatever the service does and whatever the id looks like, the two
    lookup endpoints answer with the same status, success flag and data;
    the status is 200, 400, 404 or 500; and the status is 200 exactly when
    the success flag is set, which is exactly when the response carries a
    record. *)
Theorem lookup_responses_consistent :
  forall (feishu_service : option FeishuService) (character_id : string),
    status (get_character int feishu_service character_id) =
      status (validate_character int feishu_service character_id) /\
    success (body (get_character int feishu_service character_id)) =
      success (body (validate_character int feishu_service character_id)) /\
    data (body (get_character int feishu_service character_id)) =
      data (body (validate_character int feishu_service character_id)) /\
    (status (validate_character int feishu_service character_id) = 200 \/
     status (validate_character int feishu_service character_id) = 400 \/
     status (validate_character int feishu_service character_id) = 404 \/
     status (validate_character int feishu_service character_id) = 500) /\
    (status (validate_character int feishu_service character_id) = 200 <->
     success (body (validate_character int feishu_service character_id)) =
       true) /\
    (success (body (validate_character int feishu_service character_id)) =
       true <->
     is_Some (data (body (validate_character int feishu_service
                            character_id)))).
Proof.
  intros feishu_service character_id.
  unfold get_character, validate_character.
  destruct feishu_service as [svc |]; [| simpl].
  - destruct (int character_id) as [char_id |]; [| simpl].
    + destruct (get_character_full_data svc char_id) as [e | d]; [simpl |].
      * repeat split; auto; try discriminate; intros [? ?]; discriminate.
      * destruct (dict_truthy d); simpl.
        -- repeat split; auto; eexists; reflexivity.
        -- repeat split; auto; try discriminate; intros [? ?]; discriminate.
    + repeat split; auto; try discriminate; intros [? ?]; discriminate.
  - repeat split; auto; try discriminate; intros [? ?]; discriminate.
Qed.

(** The checks come in a fixed order.  Without a service every request is
    answered 500, a malformed id included; with a service, an id that is
    not a number is answered 400 and the service is not asked; and a
    service that returns [None] or an empty dict for the id is answered
    404. *)
Theorem lookup_failure_precedence :
  forall (character_id : string),
    validate_character int None character_id =
      fail "Feishu service not available" 500 /\
    (int character_id = None ->
     forall svc svc',
       validate_character int (Some svc) character_id =
         fail "Character ID must be a number" 400 /\
       validate_character int (Some svc) character_id =
         validate_character int (Some svc') character_id) /\
    (forall svc char_id,
       int character_id = Some char_id ->
       get_character_full_data svc char_id = inr None \/
       get_character_full_data svc char_id = inr (Some ∅) ->
       validate_character int (Some svc) character_id =
         fail ("Character ID " +:+ Py.str_of_int char_id +:+ " not found")
           404).
Proof.
  intros character_id. unfold validate_character.
  split; [reflexivity |]. split.
  - intros ->. intros svc svc'. split; reflexivity.
  - intros svc char_id -> [-> | ->]; reflexivity.
Qed.

End LookupResponses.

Lemma lookup_failure_precedence_witness :
  HttpApi.validate_character HttpApi.int_of_numeral (Some Sample.feishu)
    "abc" = HttpApi.fail "Character ID must be a number" 400 /\
  HttpApi.validate_character HttpApi.int_of_numeral (Some Sample.feishu)
    "3" = HttpApi.fail ("Character ID " +:+ Py.str_of_int 3 +:+ " not found")
            404.
Proof.
  split.
  - apply (proj1 (proj2 (lookup_failure_precedence HttpApi.int_of_numeral
                           "abc")) eq_refl Sample.feishu Sample.feishu).
  - apply (proj2 (proj2 (lookup_failure_precedence HttpApi.int_of_numeral
                           "3")) Sample.feishu 3 eq_refl).
    left. reflexivity.
Defined.

(** [int_of_numeral] on decimal forms and on malformed numerals. *)
Example int_of_numeral_samples :
  HttpApi.int_of_numeral (Py.str_of_int 42) = Some 42 /\
  HttpApi.int_of_numeral (Py.str_of_int (-7)) = Some (-7) /\
  HttpApi.int_of_numeral "007" = Some 7 /\
  HttpApi.int_of_numeral "" = None /\
  HttpApi.int_of_numeral "-" = None /\
  HttpApi.int_of_numeral "1a" = None.
Proof. vm_compute. repeat split. Qed.

(** ** The character of a session ([http_server.py]) *)

Section SessionCharacter.

Import HttpServer.

Lemma append_message_character m (sessions : gmap string Session) sid :
  session_character_id <$> (alter (append_message m) sid sessions !! sid) =
    session_character_id <$> (sessions !! sid).
Proof.
  rewrite lookup_alter_eq. now destruct (sessions !! sid).
Qed.

(** Every chat request that is not a duplicate leaves its session with the
    requested character when the request names one other than 0, and with
    the character the session had (1 for a new session) otherwise.  The
    id is stored as given: it is not checked against the available
    characters, and this happens for unsupported types and failed model
    calls as well. *)
Theorem chat_sets_session_character :
  forall (cp : CharacterPrompts) (env : Env) (app : App)
         (request : ChatRequest),
    classified_duplicate env app request = false ->
    session_character_id <$>
      (chat_sessions (chat cp env app request).2 !! session_id_of env request) =
      Some (match req_character_id request with
            | Some c =>
                if c =? 0
                then default 1 (session_character_id <$>
                                  chat_sessions app !! session_id_of env request)
                else c
            | None =>
                default 1 (session_character_id <$>
                             chat_sessions app !! session_id_of env request)
            end).
Proof.
  intros cp env app request Hdup.
  unfold classified_duplicate in Hdup. unfold chat.
  destruct (is_duplicate_message _ _ _ _ _) as [dup recent].
  simpl in Hdup. subst dup. cbv zeta.
  fold (session_id_of env request).
  set (sid := session_id_of env request).
  destruct (get_or_create_session_lookup (now env 0%nat) sid
              (chat_sessions app)) as (Hat & _).
  set (sessions2 :=
         match req_character_id request with
         | Some c =>
             if negb (c =? 0)
             then alter (set_session_character c) sid
                    (get_or_create_session (now env 0%nat) sid
                       (chat_sessions app))
             else get_or_create_session (now env 0%nat) sid (chat_sessions app)
         | None =>
             get_or_create_session (now env 0%nat) sid (chat_sessions app)
         end).
  assert (session_character_id <$> sessions2 !! sid =
          Some (match req_character_id request with
                | Some c =>
                    if c =? 0
                    then default 1 (session_character_id <$>
                                      chat_sessions app !! sid)
                    else c
                | None =>
                    default 1 (session_character_id <$>
                                 chat_sessions app !! sid)
                end)) as H2.
  { unfold sessions2.
    destruct (req_character_id request) as [c |];
      [destruct (c =? 0); simpl |].
    - rewrite Hat. now destruct (chat_sessions app !! sid).
    - rewrite lookup_alter_eq, Hat. now destruct (chat_sessions app !! sid).
    - rewrite Hat. now destruct (chat_sessions app !! sid). }
  destruct (String.eqb (req_type request) "text" ||
            String.eqb (req_type request) "gemini_chat").
  - destruct (Gemini.send_message _ _ _ _ _ _ _ _) as [[g2 call] [e | t]];
      cbn [fst snd chat_sessions];
      rewrite ?append_message_character; exact H2.
  - cbn [fst snd chat_sessions].
    rewrite append_message_character. exact H2.
Qed.

End SessionCharacter.

Lemma chat_sets_session_character_witness :
  HttpServer.session_character_id <$>
    (HttpServer.chat_sessions
       (HttpServer.chat Sample.prompts (Sample.env_at 1000.5%float)
          Sample.app1 Sample.request_unknown).2 !!
     HttpServer.session_id_of (Sample.env_at 1000.5%float)
       Sample.request_unknown) = Some 3.
Proof.
  apply (chat_sets_session_character Sample.prompts
           (Sample.env_at 1000.5%float) Sample.app1 Sample.request_unknown).
  reflexivity.
Defined.

Lemma text_to_speech_answers_witness :
  HttpServer.tts_error
    (HttpServer.text_to_speech Sample.prompts "t"
       {| HttpServer.tts_req_type := "tts"; HttpServer.tts_req_text := "";
          HttpServer.tts_req_character_id := 1 |}) =
    Some "text is required" /\
  HttpServer.tts_voice_id
    (HttpServer.text_to_speech Sample.prompts "t"
       {| HttpServer.tts_req_type := "tts"; HttpServer.tts_req_text := "";
          HttpServer.tts_req_character_id := 1 |}) = "".
Proof.
  apply (proj1 (proj2 (text_to_speech_answers Sample.prompts "t"
                         {| HttpServer.tts_req_type := "tts";
                            HttpServer.tts_req_text := "";
                            HttpServer.tts_req_character_id := 1 |}))).
  reflexivity.
Defined.
